(** * LetsCollab: the collaborative-editing server of Backend/index.js

    A shallow embedding of the WebSocket server: its three pieces of
    process-wide state ([sharedDocumentContent], [activeUsersMap],
    [lineEdits]), the broadcast helpers and the handlers installed by
    [wss.on('connection', ...)], followed by the properties of the
    specification that concern them. *)

From stdpp Require Import gmap strings list pretty.
From Stdlib Require Import Ascii String ZArith Sorted.

Local Open Scope string_scope.
Local Open Scope Z_scope.
Set Warnings "-register-all".

(** ** Values received from clients *)

(** What [JSON.parse] can return. A number is kept as an integer: the only
    numbers of the protocol are the line indices of [changedLines], and
    [JNum n] stands for the number whose value is [n] and whose decimal
    numeral JavaScript prints, which is so for the safe integers
    ([safe_integer] below). Fractions, exponents and integers beyond the safe
    range are not represented: every property that names the key of a
    received number bounds that number by [safe_integer]. [JObj] lists the
    own properties of the parsed object, each key once. *)
Inductive json : Type :=
| JNull
| JBool (b : bool)
| JNum (n : Z)
| JStr (s : string)
| JArr (items : list json)
| JObj (props : list (string * json)).

(** [Number.MAX_SAFE_INTEGER], 2^53 - 1. *)
Definition MAX_SAFE_INTEGER : Z := 9007199254740991.

(** [Number.isSafeInteger]: the integers that a number holds exactly and
    that [ToString] prints as their decimal numeral. *)
Definition safe_integer (n : Z) : bool :=
  (- MAX_SAFE_INTEGER <=? n) && (n <=? MAX_SAFE_INTEGER).

(** Whether every number that the string form of [v] prints is a safe
    integer. The string form of an object does not show its properties. *)
Fixpoint safe_numbers (v : json) : bool :=
  match v with
  | JNum n => safe_integer n
  | JArr items => forallb safe_numbers items
  | _ => true
  end.

(** An incoming frame as [JSON.parse(message)] sees it: the text is either
    no JSON, and [JSON.parse] throws, or it denotes the value [v]. *)
Inductive frame : Type :=
| Unparseable
| Json (v : json).

(** Own-property lookup in a parsed object; [None] is [undefined]. *)
Fixpoint own_property (p : string) (props : list (string * json)) : option json :=
  match props with
  | [] => None
  | (k, v) :: rest => if String.eqb k p then Some v else own_property p rest
  end.

(** ** Strings *)

(** A [string] is read as a sequence of code units below 256. Among those,
    [String.prototype.trim] strips TAB, LF, VT, FF, CR, SP and NBSP. *)
Definition is_white_space (a : ascii) : bool :=
  let n := nat_of_ascii a in
  (Nat.eqb n 9 || Nat.eqb n 10 || Nat.eqb n 11 || Nat.eqb n 12
   || Nat.eqb n 13 || Nat.eqb n 32 || Nat.eqb n 160)%bool.

Fixpoint trimStart (s : string) : string :=
  match s with
  | EmptyString => EmptyString
  | String a rest => if is_white_space a then trimStart rest else s
  end.

Fixpoint trimEnd (s : string) : string :=
  match s with
  | EmptyString => EmptyString
  | String a rest =>
      match trimEnd rest with
      | EmptyString => if is_white_space a then EmptyString else String a EmptyString
      | kept => String a kept
      end
  end.

Definition trim (s : string) : string := trimEnd (trimStart s).

(** [ToString] of a parsed value, as the property access [lineEdits[lineNum]]
    applies it to its key. [None] is the [TypeError] of an object that has an
    own, hence not callable, [toString]. An array is joined with commas, a
    [null] element giving the empty string. A number is printed as its
    decimal numeral, which is what JavaScript prints for the numbers the
    model represents, the safe integers; [safe_numbers v] says that [v]
    prints no other. *)
Fixpoint ToString (v : json) : option string :=
  match v with
  | JNull => Some "null"
  | JBool true => Some "true"
  | JBool false => Some "false"
  | JNum n => Some (pretty n)
  | JStr s => Some s
  | JArr items =>
      (fix join (l : list json) : option string :=
         match l with
         | [] => Some ""
         | x :: l' =>
             let elem := match x with JNull => Some "" | _ => ToString x end in
             match l' with
             | [] => elem
             | _ :: _ =>
                 match elem, join l' with
                 | Some e, Some r => Some (e +:+ "," +:+ r)
                 | _, _ => None
                 end
             end
         end) items
  | JObj props =>
      match own_property "toString" props with
      | Some _ => None
      | None => Some "[object Object]"
      end
  end.

(** ** Server state *)

(** A connection object [ws], known by its identity. *)
Definition conn : Set := nat.

Inductive readyState : Set := CONNECTING | OPEN | CLOSING | CLOSED.

Global Instance readyState_eq_dec : EqDecision readyState.
Proof. solve_decision. Defined.

(** An element of [wss.clients]. The set is kept by the ws library; the
    handlers only read it, so they take it as an argument. *)
Definition client : Set := conn * readyState.

(** [{ id, color }], a value of [activeUsersMap]. *)
Record user : Set := User { user_id : string; user_color : string }.

(** [{ userId, color }], a value of [lineEdits]. *)
Record attribution : Set := Attribution { userId : string; color : string }.

Global Instance user_eq_dec : EqDecision user.
Proof. solve_decision. Defined.

Global Instance attribution_eq_dec : EqDecision attribution.
Proof. solve_decision. Defined.

(** [activeUsersMap] is a JavaScript [Map]: entries in insertion order, one
    per key. [Map_set] on a present key replaces the value in place. *)
Fixpoint Map_get (ws : conn) (m : list (conn * user)) : option user :=
  match m with
  | [] => None
  | (k, u) :: rest => if Nat.eqb k ws then Some u else Map_get ws rest
  end.

Definition Map_has (ws : conn) (m : list (conn * user)) : bool :=
  match Map_get ws m with Some _ => true | None => false end.

Fixpoint Map_set (ws : conn) (u : user) (m : list (conn * user)) : list (conn * user) :=
  match m with
  | [] => [(ws, u)]
  | (k, v) :: rest =>
      if Nat.eqb k ws then (k, u) :: rest else (k, v) :: Map_set ws u rest
  end.

Fixpoint Map_delete (ws : conn) (m : list (conn * user)) : list (conn * user) :=
  match m with
  | [] => []
  | (k, v) :: rest =>
      if Nat.eqb k ws then rest else (k, v) :: Map_delete ws rest
  end.

Definition Map_values (m : list (conn * user)) : list user := m.*2.

Record state : Type := State {
  sharedDocumentContent : option json;
  activeUsersMap : list (conn * user);
  lineEdits : gmap string attribution
}.

(** The state the module starts with:
    [sharedDocumentContent = ''], an empty [Map] and [{}]. *)
Definition initial : state :=
  {| sharedDocumentContent := Some (JStr "");
     activeUsersMap := [];
     lineEdits := ∅ |}.

(** ** Messages to clients *)

(** The object given to [JSON.stringify] before [send]. A [content] that is
    [undefined] is [None]. *)
Inductive server_msg : Type :=
| documentUpdate (content : option json)
| userListUpdate (users : list user)
| lineAttributionUpdate (edits : gmap string attribution)
| usernameAccepted (name : string)
| usernameRejected.

Definition packet : Type := conn * server_msg.

(** ** Handlers as state transformers that may throw *)

Inductive exn : Set := SyntaxError | TypeError.

(** A handler run ends by returning or by throwing; either way the state
    keeps every assignment made so far and [sent] every message sent. *)
Record result (A : Type) : Type := Result {
  returned : exn + A;
  final : state;
  sent : list packet
}.
Arguments Result {A} _ _ _.
Arguments returned {A} _.
Arguments final {A} _.
Arguments sent {A} _.

Definition handler (A : Type) : Type := state → result A.

Definition ret {A} (x : A) : handler A := λ s, Result (inr x) s [].

Definition throw {A} (e : exn) : handler A := λ s, Result (inl e) s [].

Definition bind {A B} (m : handler A) (k : A → handler B) : handler B :=
  λ s,
    let r := m s in
    match returned r with
    | inl e => Result (inl e) (final r) (sent r)
    | inr x =>
        let r' := k x (final r) in
        Result (returned r') (final r') (sent r ++ sent r')%list
    end.

Notation "'let*' x := m 'in' k" := (bind m (λ x, k))
  (at level 10, x name, m at level 100, k at level 200).
Notation "m ;;; k" := (bind m (λ _, k))
  (at level 100, k at level 200, right associativity).

Definition get_state : handler state := λ s, Result (inr s) s [].
Definition put_state (s' : state) : handler unit := λ _, Result (inr tt) s' [].
Definition send (to : conn) (m : server_msg) : handler unit :=
  λ s, Result (inr tt) s [(to, m)].

Fixpoint forEach {A} (f : A → handler unit) (l : list A) : handler unit :=
  match l with
  | [] => ret tt
  | x :: rest => f x ;;; forEach f rest
  end.

(** ** Core logic of the server *)

Definition colors : list string :=
  ["#EF4444"; "#F97316"; "#EAB308"; "#22C55E"; "#0EA5E9"; "#6366F1"; "#EC4899"].

(** [colors[Math.floor(Math.random() * colors.length)]]. The draw is the only
    nondeterminism of the server; [rnd] stands for it, and is brought below
    [colors.length] as the product of a number of [0, 1) and the length is. *)
Definition getRandomColor (rnd : nat) : string :=
  nth (rnd mod List.length colors)%nat colors "".

(** [wss.clients.forEach(client => { if (client.readyState === WebSocket.OPEN)
    client.send(...) })], the payload being built from the state at each
    send. *)
Definition broadcast (clients : list client) (payload : state → server_msg) : handler unit :=
  forEach (λ c : client,
    if decide (c.2 = OPEN) then
      let* s := get_state in send c.1 (payload s)
    else ret tt) clients.

Definition broadcastUserList (clients : list client) : handler unit :=
  let* s := get_state in
  let usersArray := Map_values (activeUsersMap s) in
  broadcast clients (λ _, userListUpdate usersArray).

Definition broadcastLineAttribution (clients : list client) : handler unit :=
  broadcast clients (λ s, lineAttributionUpdate (lineEdits s)).

(** ** Reading the parsed message *)

Definition JSON_parse (message : frame) : handler json :=
  match message with
  | Unparseable => throw SyntaxError
  | Json v => ret v
  end.

(** [parsed.p] for the five field names of the protocol, none of which a
    prototype defines: the own property of an object, [undefined] on any
    other value, and a [TypeError] on [null]. *)
Definition GetField (parsed : json) (p : string) : handler (option json) :=
  match parsed with
  | JNull => throw TypeError
  | JObj props => ret (own_property p props)
  | _ => ret None
  end.

(** [x.trim()]: only a string has a callable [trim]. *)
Definition call_trim (x : option json) : handler string :=
  match x with
  | Some (JStr s) => ret (trim s)
  | _ => throw TypeError
  end.

(** [s === v] for a string [s] and a received value [v]. *)
Definition strict_equal (s : string) (v : option json) : bool :=
  match v with
  | Some (JStr s') => String.eqb s s'
  | _ => false
  end.

(** [lineEdits[key] = a]. The key [__proto__] reaches the setter inherited
    from [Object.prototype] and creates no own property; [lineEdits] holds the
    own properties, which are what [JSON.stringify] sends. *)
Definition assign_lineEdits (key : string) (a : attribution) : handler unit :=
  let* s := get_state in
  if String.eqb key "__proto__" then ret tt
  else put_state {| sharedDocumentContent := sharedDocumentContent s;
                    activeUsersMap := activeUsersMap s;
                    lineEdits := <[key := a]> (lineEdits s) |}.

(** The body of [changedLines.forEach(lineNum => { ... })]. *)
Definition attribute_line (userId : option json) (lineNum : json) : handler unit :=
  let* s := get_state in
  match List.find (λ u, strict_equal (user_id u) userId) (Map_values (activeUsersMap s)) with
  | Some user =>
      match ToString lineNum with
      | Some key => assign_lineEdits key {| userId := user_id user; color := user_color user |}
      | None => throw TypeError
      end
  | None => ret tt
  end.

(** [changedLines.forEach(f)]: only an array has a callable [forEach]. *)
Definition call_forEach (changedLines : option json) (f : json → handler unit) : handler unit :=
  match changedLines with
  | Some (JArr items) => forEach f items
  | _ => throw TypeError
  end.

(** ** WebSocket event handling *)

(** [case 'checkUsername'] *)
Definition checkUsername (clients : list client) (ws : conn) (parsed : json) (rnd : nat) : handler unit :=
  let* username := GetField parsed "username" in
  let* desired := call_trim username in
  let* s := get_state in
  let isTaken := existsb (λ u, String.eqb (user_id u) desired) (Map_values (activeUsersMap s)) in
  if (String.eqb desired "" || isTaken)%bool then
    send ws usernameRejected
  else
    let user := {| user_id := desired; user_color := getRandomColor rnd |} in
    put_state {| sharedDocumentContent := sharedDocumentContent s;
                 activeUsersMap := Map_set ws user (activeUsersMap s);
                 lineEdits := lineEdits s |} ;;;
    send ws (usernameAccepted desired) ;;;
    broadcastUserList clients ;;;
    broadcastLineAttribution clients.

(** [case 'edit'] *)
Definition edit (clients : list client) (parsed : json) : handler unit :=
  let* content := GetField parsed "content" in
  let* s := get_state in
  put_state {| sharedDocumentContent := content;
               activeUsersMap := activeUsersMap s;
               lineEdits := lineEdits s |} ;;;
  let* changedLines := GetField parsed "changedLines" in
  let* userId := GetField parsed "userId" in
  call_forEach changedLines (attribute_line userId) ;;;
  broadcast clients (λ s, documentUpdate (sharedDocumentContent s)) ;;;
  broadcastLineAttribution clients.

(** [ws.on('message', message => { ... })] *)
Definition on_message (clients : list client) (ws : conn) (message : frame) (rnd : nat) : handler unit :=
  let* parsed := JSON_parse message in
  let* type := GetField parsed "type" in
  if strict_equal "checkUsername" type then checkUsername clients ws parsed rnd
  else if strict_equal "edit" type then edit clients parsed
  else ret tt.

(** [ws.on('close', () => { ... })] *)
Definition on_close (clients : list client) (ws : conn) : handler unit :=
  let* s := get_state in
  if Map_has ws (activeUsersMap s) then
    put_state {| sharedDocumentContent := sharedDocumentContent s;
                 activeUsersMap := Map_delete ws (activeUsersMap s);
                 lineEdits := lineEdits s |} ;;;
    broadcastUserList clients
  else ret tt.

(** [ws.on('error', error => { ... })] only logs. *)
Definition on_error (ws : conn) : handler unit := ret tt.

(** [wss.on('connection', ws => { ... })], up to the registration of the
    three handlers above. *)
Definition on_connection (clients : list client) (ws : conn) : handler unit :=
  (let* s := get_state in send ws (documentUpdate (sharedDocumentContent s))) ;;;
  broadcastUserList clients ;;;
  broadcastLineAttribution clients.

(** ** Runs of the server *)

(** What the event loop delivers: the event, with the content of
    [wss.clients] at that moment. *)
Inductive event : Type :=
| Connection (clients : list client) (ws : conn)
| Message (clients : list client) (ws : conn) (message : frame) (rnd : nat)
| Close (clients : list client) (ws : conn)
| Error (ws : conn).

Definition handle (ev : event) : handler unit :=
  match ev with
  | Connection clients ws => on_connection clients ws
  | Message clients ws message rnd => on_message clients ws message rnd
  | Close clients ws => on_close clients ws
  | Error ws => on_error ws
  end.

(** The state after a sequence of events and everything sent meanwhile. The
    run goes on after a handler that threw, from the state it left, which
    covers every way the host may treat the exception. *)
Fixpoint run (evs : list event) (s : state) : state * list packet :=
  match evs with
  | [] => (s, [])
  | ev :: rest =>
      let r := handle ev s in
      let '(s', out) := run rest (final r) in
      (s', (sent r ++ out)%list)
  end.

(** The messages the client of this repository builds with
    [JSON.stringify] in [handleJoin] and [handleDocumentChange]. *)
Definition checkUsername_msg (username : string) : frame :=
  Json (JObj [("type", JStr "checkUsername"); ("username", JStr username)]).

Definition edit_msg (userId content : string) (changedLines : list Z) : frame :=
  Json (JObj [("type", JStr "edit"); ("userId", JStr userId);
              ("content", JStr content);
              ("changedLines", JArr (JNum <$> changedLines))]).

(** The line break of a document. *)
Definition LF : string := String (ascii_of_nat 10) EmptyString.

(** ** Vocabulary of the properties *)

(** The connections a broadcast reaches. *)
Definition recipients (clients : list client) : list conn :=
  (filter (λ c : client, c.2 = OPEN) clients).*1.

Definition to_all (clients : list client) (m : server_msg) : list packet :=
  (λ c, (c, m)) <$> recipients clients.

Definition identities (s : state) : list string :=
  user_id <$> Map_values (activeUsersMap s).

(** The registry is a [Map] (one entry per connection) in which no identity
    occurs twice and none is empty. *)
Record registry_ok (s : state) : Prop := RegistryOk {
  one_per_connection : NoDup (activeUsersMap s).*1;
  one_per_identity : NoDup (identities s);
  identities_nonempty : "" ∉ identities s
}.

Definition with_lineEdits (s : state) (le : gmap string attribution) : state :=
  {| sharedDocumentContent := sharedDocumentContent s;
     activeUsersMap := activeUsersMap s;
     lineEdits := le |}.

(** One assignment [lineEdits[key] = a] on the mapping alone. *)
Definition assign (a : attribution) (le : gmap string attribution) (key : string)
  : gmap string attribution :=
  if String.eqb key "__proto__" then le else <[key := a]> le.

(** The keys the loop over [changedLines] reaches before an element without
    a string form stops it, and whether one does. *)
Fixpoint keys_until_throw (items : list json) : list string * bool :=
  match items with
  | [] => ([], false)
  | x :: rest =>
      match ToString x with
      | None => ([], true)
      | Some k => let '(ks, stopped) := keys_until_throw rest in (k :: ks, stopped)
      end
  end.

(** [Array.from(activeUsersMap.values()).find(u => u.id === userId)] *)
Definition author (uid : option json) (s : state) : option user :=
  List.find (λ u, strict_equal (user_id u) uid) (Map_values (activeUsersMap s)).

(** [Array.from(activeUsersMap.values()).some(user => user.id === desired)] *)
Definition isTaken (desired : string) (s : state) : bool :=
  existsb (λ u, String.eqb (user_id u) desired) (Map_values (activeUsersMap s)).

(** The run of [case 'checkUsername'] on an object with own properties
    [props], in closed form. *)
Definition checkUsername_outcome (clients : list client) (ws : conn)
    (props : list (string * json)) (rnd : nat) (s : state) : result unit :=
  match own_property "username" props with
  | Some (JStr name) =>
      let desired := trim name in
      if (String.eqb desired "" || isTaken desired s)%bool then
        Result (inr tt) s [(ws, usernameRejected)]
      else
        let users := Map_set ws {| user_id := desired; user_color := getRandomColor rnd |}
                             (activeUsersMap s) in
        Result (inr tt)
          {| sharedDocumentContent := sharedDocumentContent s;
             activeUsersMap := users;
             lineEdits := lineEdits s |}
          ((ws, usernameAccepted desired)
             :: to_all clients (userListUpdate (Map_values users))
             ++ to_all clients (lineAttributionUpdate (lineEdits s)))%list
  | _ => Result (inl TypeError) s []
  end.

(** The run of [case 'edit'], in closed form. *)
Definition edit_outcome (clients : list client)
    (props : list (string * json)) (s : state) : result unit :=
  let content := own_property "content" props in
  let replaced := {| sharedDocumentContent := content;
                     activeUsersMap := activeUsersMap s;
                     lineEdits := lineEdits s |} in
  match own_property "changedLines" props with
  | Some (JArr items) =>
      let edits :=
        match author (own_property "userId" props) s with
        | Some u => foldl (assign {| userId := user_id u; color := user_color u |})
                          (lineEdits s) (keys_until_throw items).1
        | None => lineEdits s
        end in
      let stopped :=
        match author (own_property "userId" props) s with
        | Some _ => (keys_until_throw items).2
        | None => false
        end in
      if stopped then Result (inl TypeError) (with_lineEdits replaced edits) []
      else Result (inr tt) (with_lineEdits replaced edits)
             (to_all clients (documentUpdate content)
                ++ to_all clients (lineAttributionUpdate edits))%list
  | _ => Result (inl TypeError) replaced []
  end.

(** The characters of a numeral: the digits and the sign. *)
Definition numeral_char (a : ascii) : bool :=
  let n := nat_of_ascii a in
  ((48 <=? n)%nat && (n <=? 57)%nat || Nat.eqb n 45)%bool.

Fixpoint numeral_chars (s : string) : bool :=
  match s with
  | EmptyString => true
  | String a rest => numeral_char a && numeral_chars rest
  end.

(** Whether the event is a [checkUsername] for a name that trims to [d]. *)
Definition claims (d : string) (ev : event) : bool :=
  match ev with
  | Message _ _ (Json (JObj props)) _ =>
      strict_equal "checkUsername" (own_property "type" props)
      && match own_property "username" props with
         | Some (JStr name) => String.eqb (trim name) d
         | _ => false
         end
  | _ => false
  end.

(** The key of a zero-based line index: the numeral of an integer that is
    at least 0. *)
Definition line_index (k : string) : Prop := ∃ n : Z, 0 ≤ n ∧ k = pretty n.

Definition keys_are_line_indices (le : gmap string attribution) : Prop :=
  ∀ k, is_Some (le !! k) → line_index k.

(** A line number as a client can report it: a safe integer that is at
    least 0. *)
Definition is_line_number (x : json) : bool :=
  match x with
  | JNum n => (0 <=? n) && (n <=? MAX_SAFE_INTEGER)
  | _ => false
  end.

(** Whether the event, if it is an [edit] message with an array for
    [changedLines], lists only safe integers that are at least 0. *)
Definition reports_line_numbers (ev : event) : bool :=
  match ev with
  | Message _ _ (Json (JObj props)) _ =>
      if strict_equal "edit" (own_property "type" props) then
        match own_property "changedLines" props with
        | Some (JArr items) => forallb is_line_number items
        | _ => true
        end
      else true
  | _ => true
  end.

(** The same without the upper bound, for the indices of a text. *)
Definition is_natural_number (x : json) : bool :=
  match x with
  | JNum n => 0 <=? n
  | _ => false
  end.

Definition lists_natural_numbers (ev : event) : bool :=
  match ev with
  | Message _ _ (Json (JObj props)) _ =>
      if strict_equal "edit" (own_property "type" props) then
        match own_property "changedLines" props with
        | Some (JArr items) => forallb is_natural_number items
        | _ => true
        end
      else true
  | _ => true
  end.

(** C4, as the specification words it: a frame that is no JSON is dropped,
    the handler returning as if nothing had been received. *)
Definition drops_unparseable_frames : Prop :=
  ∀ (clients : list client) (ws : conn) (rnd : nat) (s : state),
    on_message clients ws Unparseable rnd s = Result (inr tt) s [].

(** C8, as the specification words it: whatever events the server handles,
    every key of [lineEdits] is a zero-based line index. *)
Definition lineEdits_keys_always_indices : Prop :=
  ∀ evs : list event, keys_are_line_indices (lineEdits (run evs initial).1).

(** Closes a goal that draws a packet from an empty output. *)
Ltac nothing_sent :=
  let H := fresh "Hnil" in intros H; apply elem_of_nil in H; destruct H.

(** The scenario of the specification: A connects and claims alice, B
    connects, is refused alice and claims bob, A edits both lines of the
    document, A disconnects. *)
Definition scenario : list event :=
  let A := 1%nat in
  let B := 2%nat in
  [Connection [(A, OPEN)] A;
   Message [(A, OPEN)] A (checkUsername_msg "alice") 4;
   Connection [(A, OPEN); (B, OPEN)] B;
   Message [(A, OPEN); (B, OPEN)] B (checkUsername_msg "alice") 2;
   Message [(A, OPEN); (B, OPEN)] B (checkUsername_msg "bob") 2;
   Message [(A, OPEN); (B, OPEN)] A (edit_msg "alice" ("hello" +:+ LF +:+ "world") [0; 1]) 0;
   Close [(B, OPEN)] A].

(** ** The rest of the vocabulary: events and values *)

Definition clients_of (ev : event) : list client :=
  match ev with
  | Connection clients _ | Message clients _ _ _ | Close clients _ => clients
  | Error _ => []
  end.

Definition ws_of (ev : event) : conn :=
  match ev with
  | Connection _ ws | Message _ ws _ _ | Close _ ws | Error ws => ws
  end.

(** [parsed.type] of a value that is not [null]. *)
Definition message_type (v : json) : option json :=
  match v with
  | JObj props => own_property "type" props
  | _ => None
  end.

Definition is_edit (ev : event) : bool :=
  match ev with
  | Message _ _ (Json v) _ => strict_equal "edit" (message_type v)
  | _ => false
  end.

Definition is_claim_or_close (ev : event) : bool :=
  match ev with
  | Message _ _ (Json v) _ => strict_equal "checkUsername" (message_type v)
  | Close _ _ => true
  | _ => false
  end.

(** What every participant and every attribution entry is made of: a name
    that is trimmed and not empty, and a color of the palette. *)
Definition name_ok (d : string) : Prop := d ≠ "" ∧ trim d = d.

Definition values_ok (s : state) : Prop :=
  (∀ u, u ∈ Map_values (activeUsersMap s) →
        name_ok (user_id u) ∧ user_color u ∈ colors)
  ∧ (∀ k a, lineEdits s !! k = Some a → name_ok (userId a) ∧ color a ∈ colors).

(** ** The editor client (App.js) *)

(** [s.split('\n')] *)
Fixpoint split_lines (s : string) : list string :=
  match s with
  | EmptyString => [EmptyString]
  | String a rest =>
      if Ascii.eqb a (ascii_of_nat 10) then EmptyString :: split_lines rest
      else
        match split_lines rest with
        | [] => [String a EmptyString]
        | line :: lines => String a line :: lines
        end
  end.

(** [line !== oldLines[index]], where a missing [oldLines[index]] is
    [undefined] and so differs from every line. *)
Definition line_changed (oldLines : list string) (line : string) (index : nat) : bool :=
  match oldLines !! index with
  | Some old => negb (String.eqb line old)
  | None => true
  end.

(** [newLines.forEach((line, index) => { if (line !== oldLines[index])
    changedLines.push(index); })], from [index] on. *)
Fixpoint collect_changed (oldLines : list string) (index : nat)
    (newLines : list string) (changedLines : list nat) : list nat :=
  match newLines with
  | [] => changedLines
  | line :: rest =>
      collect_changed oldLines (S index) rest
        (if line_changed oldLines line index then (changedLines ++ [index])%list
         else changedLines)
  end.

(** The [changedLines] that [handleDocumentChange] computes. *)
Definition diff_lines (previous newContent : string) : list nat :=
  collect_changed (split_lines previous) 0 (split_lines newContent) [].

(** [ws.current && ws.current.readyState === WebSocket.OPEN] *)
Definition socket_open (ws : option readyState) : bool :=
  match ws with
  | Some OPEN => true
  | _ => false
  end.

(** [handleDocumentChange], for what leaves the component: the new value of
    [previousContentRef.current] and the message sent, if any. [None] is the
    [TypeError] of [split] on a [previousContentRef.current] that is no
    string (it is set from [documentUpdate.content]). The calls to the state
    setters are not part of the model. *)
Definition handleDocumentChange (previousContentRef : option json)
    (ws : option readyState) (userId newContent : string)
  : option (string * option frame) :=
  match previousContentRef with
  | Some (JStr previous) =>
      let changedLines := diff_lines previous newContent in
      Some (newContent,
            if socket_open ws
            then Some (edit_msg userId newContent (Z.of_nat <$> changedLines))
            else None)
  | _ => None
  end.

(** [handleJoin]: the error it sets, if any, and the message sent, if any. *)
Definition handleJoin (ws : option readyState) (usernameInput : string)
  : option string * option frame :=
  let trimmedName := trim usernameInput in
  if String.eqb trimmedName "" then (Some "Username cannot be empty.", None)
  else (None, if socket_open ws then Some (checkUsername_msg trimmedName) else None).

(** An event the editor can cause: anything but an [edit] message, or the
    [edit] message of a [handleDocumentChange]. *)
Definition from_editor (ev : event) : Prop :=
  is_edit ev = true →
  ∃ clients ws rnd uid previous newContent,
    ev = Message clients ws
           (edit_msg uid newContent (Z.of_nat <$> diff_lines previous newContent)) rnd.

(** * Lemmas *)

Section Broadcast.
Variable clients : list client.

Lemma broadcast_spec (payload : state → server_msg) (s : state) :
  broadcast clients payload s = Result (inr tt) s (to_all clients (payload s)).
Proof.
  unfold broadcast, to_all, recipients.
  induction clients as [|[c rs] rest IH]; [reflexivity|].
  cbn [forEach]. unfold bind at 1. rewrite filter_cons. cbn [snd fst].
  destruct (decide (rs = OPEN)) as [->|Hrs].
  - cbn. rewrite IH. reflexivity.
  - cbn. rewrite IH. reflexivity.
Qed.

Lemma broadcastUserList_spec (s : state) :
  broadcastUserList clients s =
  Result (inr tt) s (to_all clients (userListUpdate (Map_values (activeUsersMap s)))).
Proof. unfold broadcastUserList, bind. cbn. rewrite broadcast_spec. reflexivity. Qed.

Lemma broadcastLineAttribution_spec (s : state) :
  broadcastLineAttribution clients s =
  Result (inr tt) s (to_all clients (lineAttributionUpdate (lineEdits s))).
Proof. apply broadcast_spec. Qed.
End Broadcast.

Arguments broadcast : simpl never.
Arguments broadcastUserList : simpl never.
Arguments broadcastLineAttribution : simpl never.

Section Registry.
Implicit Types (m : list (conn * user)) (ws k : conn) (u v : user).

Lemma Map_get_Some_elem ws m u : Map_get ws m = Some u → (ws, u) ∈ m.
Proof.
  induction m as [|[k v] rest IH]; cbn; [discriminate|].
  destruct (Nat.eqb_spec k ws) as [->|Hne].
  - intros [= ->]. left.
  - intros H. right. auto.
Qed.

Lemma Map_get_None_keys ws m : Map_get ws m = None → ws ∉ m.*1.
Proof.
  induction m as [|[k v] rest IH]; cbn.
  - intros _. apply not_elem_of_nil.
  - destruct (Nat.eqb_spec k ws) as [->|Hne]; [discriminate|].
    intros H. apply not_elem_of_cons. split; [congruence | auto].
Qed.

Lemma elem_Map_get ws m u : NoDup m.*1 → (ws, u) ∈ m → Map_get ws m = Some u.
Proof.
  induction m as [|[k v] rest IH]; cbn.
  - intros _ H. by apply elem_of_nil in H.
  - intros [Hk Hnd]%NoDup_cons [Heq|Hin]%elem_of_cons.
    + injection Heq as -> ->. by rewrite Nat.eqb_refl.
    + destruct (Nat.eqb_spec k ws) as [->|Hne]; [|auto].
      exfalso. apply Hk. apply list_elem_of_fmap. by exists (ws, u).
Qed.

Lemma Map_set_get_eq ws u m : Map_get ws (Map_set ws u m) = Some u.
Proof.
  induction m as [|[k v] rest IH]; cbn.
  - by rewrite Nat.eqb_refl.
  - destruct (Nat.eqb_spec k ws) as [->|Hne]; cbn.
    + by rewrite Nat.eqb_refl.
    + by destruct (Nat.eqb_spec k ws).
Qed.

Lemma Map_set_get_ne ws ws' u m :
  ws ≠ ws' → Map_get ws' (Map_set ws u m) = Map_get ws' m.
Proof.
  intros Hne. induction m as [|[k v] rest IH]; cbn.
  - by destruct (Nat.eqb_spec ws ws').
  - destruct (Nat.eqb_spec k ws) as [->|Hk]; cbn.
    + by destruct (Nat.eqb_spec ws ws').
    + by rewrite IH.
Qed.

Lemma Map_set_keys ws u m :
  (Map_set ws u m).*1 = if Map_has ws m then m.*1 else (m.*1 ++ [ws])%list.
Proof.
  unfold Map_has. induction m as [|[k v] rest IH]; cbn; [done|].
  destruct (Nat.eqb_spec k ws) as [->|Hk]; cbn; [done|].
  rewrite IH. by destruct (Map_get ws rest).
Qed.

Lemma Map_set_length ws u m :
  Map_has ws m = true → List.length (Map_set ws u m) = List.length m.
Proof.
  intros H. rewrite <-(length_fmap fst), Map_set_keys, H. apply length_fmap.
Qed.

Lemma Map_set_NoDup_keys ws u m : NoDup m.*1 → NoDup (Map_set ws u m).*1.
Proof.
  intros Hnd. rewrite Map_set_keys. unfold Map_has.
  destruct (Map_get ws m) eqn:Hget; [done|].
  apply NoDup_app. split_and!; [done| |apply NoDup_singleton].
  intros x Hx ->%list_elem_of_singleton.
  by apply Map_get_None_keys in Hget.
Qed.

(** After [set], an entry is the new one or an old one of another key. *)
Lemma Map_set_elem ws u m k v :
  NoDup m.*1 → (k, v) ∈ Map_set ws u m →
  (k = ws ∧ v = u) ∨ (k ≠ ws ∧ (k, v) ∈ m).
Proof.
  induction m as [|[k' v'] rest IH]; cbn.
  - intros _ [= -> ->]%list_elem_of_singleton. by left.
  - intros [Hk Hnd]%NoDup_cons.
    destruct (Nat.eqb_spec k' ws) as [->|Hne].
    + intros [[= -> ->]|Hin]%elem_of_cons; [by left|].
      right. split; [|by right].
      intros ->. apply Hk. apply list_elem_of_fmap. by exists (ws, v).
    + intros [[= -> ->]|Hin]%elem_of_cons.
      * right. split; [done | left].
      * destruct (IH Hnd Hin) as [?|[? ?]]; [by left|].
        right. split; [done | by right].
Qed.

Lemma Map_set_values_elem ws u m v :
  v ∈ Map_values (Map_set ws u m) → v = u ∨ v ∈ Map_values m.
Proof.
  unfold Map_values. induction m as [|[k' v'] rest IH]; cbn.
  - intros ->%list_elem_of_singleton. by left.
  - destruct (Nat.eqb_spec k' ws) as [->|Hne]; cbn.
    + intros [->|Hin]%elem_of_cons; [by left|]. right. by right.
    + intros [->|Hin]%elem_of_cons; [right; left|].
      destruct (IH Hin); [by left|]. right. by right.
Qed.

Lemma Map_set_NoDup_ids ws u m :
  NoDup (user_id <$> Map_values m) →
  user_id u ∉ user_id <$> Map_values m →
  NoDup (user_id <$> Map_values (Map_set ws u m)).
Proof.
  unfold Map_values. induction m as [|[k' v'] rest IH]; cbn.
  - intros _ _. apply NoDup_singleton.
  - intros [Hv Hnd]%NoDup_cons [Hne Hu]%not_elem_of_cons.
    destruct (Nat.eqb_spec k' ws) as [->|Hk]; cbn.
    + apply NoDup_cons. split; done.
    + apply NoDup_cons. split; [|by apply IH].
      intros (x & Hx & Hin)%list_elem_of_fmap.
      apply (Map_set_values_elem ws u rest) in Hin as [->|Hin]; [congruence|].
      apply Hv. apply list_elem_of_fmap. by exists x.
Qed.

Lemma Map_delete_sublist ws m : sublist (Map_delete ws m) m.
Proof.
  induction m as [|[k' v'] rest IH]; cbn; [done|].
  destruct (Nat.eqb k' ws).
  - by apply sublist_cons.
  - by apply sublist_skip.
Qed.

Lemma Map_delete_get_eq ws m : NoDup m.*1 → Map_get ws (Map_delete ws m) = None.
Proof.
  induction m as [|[k' v'] rest IH]; cbn; [done|].
  intros [Hk Hnd]%NoDup_cons.
  destruct (Nat.eqb_spec k' ws) as [->|Hne]; cbn.
  - destruct (Map_get ws rest) eqn:Hget; [|done].
    exfalso. apply Hk. apply Map_get_Some_elem in Hget.
    apply list_elem_of_fmap. by exists (ws, u).
  - destruct (Nat.eqb_spec k' ws); [done | auto].
Qed.

Lemma Map_delete_get_ne ws ws' m :
  ws ≠ ws' → Map_get ws' (Map_delete ws m) = Map_get ws' m.
Proof.
  intros Hne. induction m as [|[k' v'] rest IH]; cbn; [done|].
  destruct (Nat.eqb_spec k' ws) as [->|Hk]; cbn.
  - by destruct (Nat.eqb_spec ws ws').
  - by rewrite IH.
Qed.

(** With [NoDup] identities, an identity names one entry. *)
Lemma identity_names_one_entry m k1 k2 v1 v2 :
  NoDup (user_id <$> Map_values m) →
  (k1, v1) ∈ m → (k2, v2) ∈ m → user_id v1 = user_id v2 →
  k1 = k2 ∧ v1 = v2.
Proof.
  unfold Map_values. induction m as [|[k' v'] rest IH]; cbn.
  - intros _ H. by apply elem_of_nil in H.
  - intros [Hv Hnd]%NoDup_cons [[= -> ->]|H1]%elem_of_cons [[= -> ->]|H2]%elem_of_cons Hid.
    + done.
    + exfalso. apply Hv. apply list_elem_of_fmap. exists v2. split; [done|].
      apply list_elem_of_fmap. by exists (k2, v2).
    + exfalso. apply Hv. apply list_elem_of_fmap. exists v1. split; [done|].
      apply list_elem_of_fmap. by exists (k1, v1).
    + by apply IH.
Qed.
End Registry.

Section Attribution.
Implicit Types (le : gmap string attribution) (a : attribution) (k : string).

Lemma with_lineEdits_same (s : state) : with_lineEdits s (lineEdits s) = s.
Proof. by destruct s. Qed.

(** What a run of assignments leaves under each key. *)
Lemma foldl_assign_lookup a (ks : list string) le k :
  foldl (assign a) le ks !! k =
  if decide (k ∈ ks ∧ k ≠ "__proto__") then Some a else le !! k.
Proof.
  revert le. induction ks as [|x ks IH]; intros le; cbn [foldl].
  - case_decide as H; [|done]. destruct H as [H _]. by apply elem_of_nil in H.
  - rewrite IH. unfold assign.
    destruct (decide (k ∈ ks ∧ k ≠ "__proto__")) as [[Hin Hk]|Hno].
    + rewrite decide_True; [done|]. split; [by right | done].
    + destruct (String.eqb_spec x "__proto__") as [->|Hx].
      * rewrite decide_False; [done|].
        intros [[->|Hin]%elem_of_cons Hk]; [done | by apply Hno].
      * destruct (decide (x = k)) as [->|Hxk].
        -- rewrite lookup_insert_eq, decide_True; [done|]. split; [left | done].
        -- rewrite lookup_insert_ne by done. rewrite decide_False; [done|].
           intros [[->|Hin]%elem_of_cons Hk]; [done | by apply Hno].
Qed.

Lemma foldl_assign_twice a (ks : list string) le :
  foldl (assign a) (foldl (assign a) le ks) ks = foldl (assign a) le ks.
Proof.
  apply map_eq. intros k. rewrite !foldl_assign_lookup.
  by case_decide.
Qed.

(** The loop when [find] gives no user: nothing happens. *)
Lemma attribute_lines_unknown (uid : option json) (items : list json) (s : state) :
  List.find (λ u, strict_equal (user_id u) uid) (Map_values (activeUsersMap s)) = None →
  forEach (attribute_line uid) items s = Result (inr tt) s [].
Proof.
  intros Hfind. induction items as [|x rest IH]; [done|].
  cbn [forEach]. unfold bind at 1, attribute_line at 1, bind at 1.
  cbn. rewrite Hfind. cbn. rewrite IH. done.
Qed.

(** The loop when [find] gives [u]: one assignment per element, up to the
    first element without a string form. *)
Lemma attribute_lines_known (uid : option json) (items : list json) (s : state) (u : user) :
  List.find (λ u, strict_equal (user_id u) uid) (Map_values (activeUsersMap s)) = Some u →
  forEach (attribute_line uid) items s =
  Result (if (keys_until_throw items).2 then inl TypeError else inr tt)
         (with_lineEdits s
            (foldl (assign {| userId := user_id u; color := user_color u |})
                   (lineEdits s) (keys_until_throw items).1))
         [].
Proof.
  revert s. induction items as [|x rest IH]; intros s Hfind.
  - cbn. by rewrite with_lineEdits_same.
  - cbn [forEach keys_until_throw].
    unfold bind at 1, attribute_line at 1, bind at 1. cbn.
    rewrite Hfind. destruct (ToString x) as [key|]; cbn.
    + unfold assign_lineEdits, bind. cbn.
      destruct (keys_until_throw rest) as [ks stopped] eqn:Hks. cbn.
      destruct (String.eqb key "__proto__") eqn:Hkey; cbn.
      * rewrite (IH s Hfind). cbn. unfold assign at 3. by rewrite Hkey.
      * rewrite IH by done. cbn. unfold assign at 3. by rewrite Hkey.
    + by rewrite with_lineEdits_same.
Qed.

(** A list of line numbers is walked to its end. *)
Lemma keys_of_line_numbers (lines : list Z) :
  keys_until_throw (JNum <$> lines) = (pretty <$> lines, false).
Proof. induction lines as [|n rest IH]; cbn; [done|]. by rewrite IH. Qed.
End Attribution.

(** The numeral of an integer is made of digits and at most a sign. *)
Section Numerals.

Lemma pretty_N_char_numeral (x : N) : numeral_char (pretty_N_char x) = true.
Proof. unfold pretty_N_char. by repeat case_match. Qed.

Lemma pretty_N_go_numeral (x : N) (s : string) :
  numeral_chars s = true → numeral_chars (pretty_N_go x s) = true.
Proof.
  revert s. induction (N.lt_wf_0 x) as [x _ IH]; intros s Hs.
  destruct (decide (x = 0)%N) as [->|Hx]; [by rewrite pretty_N_go_0|].
  rewrite pretty_N_go_step by lia. apply IH.
  - apply N.div_lt; lia.
  - cbn. by rewrite pretty_N_char_numeral.
Qed.

Lemma pretty_N_numeral (x : N) : numeral_chars (pretty x) = true.
Proof.
  unfold pretty, pretty_N. case_decide; [done|]. by apply pretty_N_go_numeral.
Qed.

Lemma pretty_Z_numeral (n : Z) : numeral_chars (pretty n) = true.
Proof.
  destruct n as [|p|p]; [done| |].
  - apply (pretty_N_numeral (N.pos p)).
  - change (numeral_chars (String "-" (pretty (N.pos p))) = true).
    cbn. apply pretty_N_numeral.
Qed.

Lemma pretty_Z_not_proto (n : Z) : String.eqb (pretty n) "__proto__" = false.
Proof.
  destruct (String.eqb_spec (pretty n) "__proto__") as [Heq|]; [|done].
  pose proof (pretty_Z_numeral n) as H. rewrite Heq in H. discriminate.
Qed.
End Numerals.

Section Handlers.
Variables (clients : list client) (ws : conn) (rnd : nat).

Lemma on_connection_spec (s : state) :
  on_connection clients ws s =
  Result (inr tt) s
    ((ws, documentUpdate (sharedDocumentContent s))
       :: to_all clients (userListUpdate (Map_values (activeUsersMap s)))
       ++ to_all clients (lineAttributionUpdate (lineEdits s)))%list.
Proof.
  unfold on_connection, bind. cbn.
  rewrite broadcastUserList_spec. cbn.
  rewrite broadcastLineAttribution_spec. done.
Qed.

Lemma on_close_spec (s : state) :
  on_close clients ws s =
  if Map_has ws (activeUsersMap s) then
    Result (inr tt)
      {| sharedDocumentContent := sharedDocumentContent s;
         activeUsersMap := Map_delete ws (activeUsersMap s);
         lineEdits := lineEdits s |}
      (to_all clients (userListUpdate (Map_values (Map_delete ws (activeUsersMap s)))))
  else Result (inr tt) s [].
Proof.
  unfold on_close, bind. cbn.
  destruct (Map_has ws (activeUsersMap s)); [|done].
  cbn. rewrite broadcastUserList_spec. done.
Qed.

Lemma checkUsername_spec (props : list (string * json)) (s : state) :
  checkUsername clients ws (JObj props) rnd s = checkUsername_outcome clients ws props rnd s.
Proof.
  unfold checkUsername, checkUsername_outcome, bind. cbn.
  destruct (own_property "username" props) as [[| | |name| |]|]; try done.
  cbn. fold (isTaken (trim name) s).
  destruct (String.eqb (trim name) "" || isTaken (trim name) s)%bool; [done|].
  cbn. rewrite broadcastUserList_spec. cbn.
  rewrite broadcastLineAttribution_spec. done.
Qed.

Lemma edit_spec (props : list (string * json)) (s : state) :
  edit clients (JObj props) s = edit_outcome clients props s.
Proof.
  unfold edit, edit_outcome, bind. cbn.
  destruct (own_property "changedLines" props) as [[| | | |items|]|]; try done.
  cbn. unfold author.
  set (s0 := {| sharedDocumentContent := own_property "content" props;
                activeUsersMap := activeUsersMap s; lineEdits := lineEdits s |}).
  destruct (List.find _ (Map_values (activeUsersMap s))) as [u|] eqn:Hfind.
  - rewrite (attribute_lines_known _ items s0 u) by done.
    cbn. destruct (keys_until_throw items) as [ks stopped]. cbn.
    destruct stopped; [done|]. cbn.
    rewrite broadcast_spec. cbn. rewrite broadcastLineAttribution_spec. done.
  - rewrite (attribute_lines_unknown _ items s0) by done.
    cbn. rewrite broadcast_spec. cbn. rewrite broadcastLineAttribution_spec. done.
Qed.

(** Every frame is a name claim, an edit, or leaves no trace. *)
Lemma on_message_dispatch (message : frame) (s : state) :
  (∃ props, message = Json (JObj props)
     ∧ own_property "type" props = Some (JStr "checkUsername")
     ∧ on_message clients ws message rnd s = checkUsername_outcome clients ws props rnd s)
  ∨ (∃ props, message = Json (JObj props)
     ∧ own_property "type" props = Some (JStr "edit")
     ∧ on_message clients ws message rnd s = edit_outcome clients props s)
  ∨ (final (on_message clients ws message rnd s) = s
     ∧ sent (on_message clients ws message rnd s) = []).
Proof.
  destruct message as [|v]; [by right; right|].
  destruct v as [| | | | |props]; try (right; right; done).
  unfold on_message, bind. cbn.
  destruct (own_property "type" props) as [[| | |t| |]|] eqn:Htype;
    try (right; right; done).
  unfold strict_equal. destruct (String.eqb_spec "checkUsername" t) as [<-|Hc].
  - left. exists props. split_and!; [done..|].
    rewrite checkUsername_spec. by destruct (checkUsername_outcome _ _ _ _ _).
  - destruct (String.eqb_spec "edit" t) as [<-|He].
    + right; left. exists props. split_and!; [done..|].
      rewrite edit_spec. by destruct (edit_outcome _ _ _).
    + by right; right.
Qed.

Lemma on_message_checkUsername (props : list (string * json)) (s : state) :
  own_property "type" props = Some (JStr "checkUsername") →
  on_message clients ws (Json (JObj props)) rnd s
  = checkUsername_outcome clients ws props rnd s.
Proof.
  intros Htype. unfold on_message, bind. cbn -[checkUsername].
  rewrite Htype. cbn -[checkUsername].
  rewrite checkUsername_spec. by destruct (checkUsername_outcome _ _ _ _ _).
Qed.

Lemma on_message_edit (props : list (string * json)) (s : state) :
  own_property "type" props = Some (JStr "edit") →
  on_message clients ws (Json (JObj props)) rnd s = edit_outcome clients props s.
Proof.
  intros Htype. unfold on_message, bind. cbn -[edit].
  rewrite Htype. cbn -[edit].
  rewrite edit_spec. by destruct (edit_outcome _ _ _).
Qed.
End Handlers.

Arguments checkUsername : simpl never.
Arguments edit : simpl never.

Section Invariant.
Lemma isTaken_true (d : string) (s : state) : isTaken d s = true ↔ d ∈ identities s.
Proof.
  unfold isTaken, identities. induction (Map_values (activeUsersMap s)) as [|u us IH]; cbn.
  - split; [discriminate|]. intros H. by apply elem_of_nil in H.
  - rewrite orb_true_iff, IH, elem_of_cons.
    destruct (String.eqb_spec (user_id u) d) as [->|Hne].
    + split; auto.
    + split; (intros [?|?]; [congruence | by right]).
Qed.

Lemma isTaken_false (d : string) (s : state) : isTaken d s = false ↔ d ∉ identities s.
Proof. rewrite <-isTaken_true. by destruct (isTaken d s). Qed.

Lemma registry_ok_initial : registry_ok initial.
Proof. split; cbn; [apply NoDup_nil_2 | apply NoDup_nil_2 | apply not_elem_of_nil]. Qed.

Lemma registry_ok_users (s s' : state) :
  activeUsersMap s' = activeUsersMap s → registry_ok s → registry_ok s'.
Proof. intros Heq [? ? ?]. split; unfold identities in *; by rewrite Heq. Qed.

Lemma registry_ok_claim (s s' : state) (ws : conn) (d c : string) :
  activeUsersMap s' = Map_set ws {| user_id := d; user_color := c |} (activeUsersMap s) →
  d ≠ "" → d ∉ identities s → registry_ok s → registry_ok s'.
Proof.
  intros Heq Hd Hfresh [Hk Hi Hn]. split; unfold identities in *; rewrite Heq.
  - by apply Map_set_NoDup_keys.
  - by apply Map_set_NoDup_ids.
  - intros (u & Hu & Hin)%list_elem_of_fmap.
    apply Map_set_values_elem in Hin as [->|Hin]; [by apply Hd|].
    apply Hn. rewrite Hu. by apply list_elem_of_fmap_2.
Qed.

Lemma registry_ok_release (s s' : state) (ws : conn) :
  activeUsersMap s' = Map_delete ws (activeUsersMap s) →
  registry_ok s → registry_ok s'.
Proof.
  intros Heq [Hk Hi Hn].
  pose proof (Map_delete_sublist ws (activeUsersMap s)) as Hsub.
  split; unfold identities, Map_values in *; rewrite Heq.
  - eapply sublist_NoDup; [exact Hk|]. by apply fmap_sublist.
  - eapply sublist_NoDup; [exact Hi|]. by do 2 apply fmap_sublist.
  - intros Hin. apply Hn. eapply sublist_subseteq; [|exact Hin].
    by do 2 apply fmap_sublist.
Qed.

Lemma checkUsername_outcome_ok clients ws props rnd (s : state) :
  registry_ok s → registry_ok (final (checkUsername_outcome clients ws props rnd s)).
Proof.
  intros Hok. unfold checkUsername_outcome.
  destruct (own_property "username" props) as [[| | |name| |]|]; try done.
  destruct (String.eqb_spec (trim name) "") as [He|He]; cbn; [done|].
  destruct (isTaken (trim name) s) eqn:Htaken; cbn; [done|].
  eapply registry_ok_claim; [reflexivity|done| |done].
  by apply isTaken_false.
Qed.

Lemma edit_outcome_users clients props (s : state) :
  activeUsersMap (final (edit_outcome clients props s)) = activeUsersMap s.
Proof.
  unfold edit_outcome.
  destruct (own_property "changedLines" props) as [[| | | |items|]|]; try done.
  by case_match.
Qed.

Lemma handle_registry_ok (ev : event) (s : state) :
  registry_ok s → registry_ok (final (handle ev s)).
Proof.
  intros Hok. destruct ev as [clients ws|clients ws message rnd|clients ws|ws]; cbn [handle].
  - by rewrite on_connection_spec.
  - destruct (on_message_dispatch clients ws rnd message s)
      as [(p & _ & _ & ->)|[(p & _ & _ & ->)|[-> _]]]; [| |done].
    + by apply checkUsername_outcome_ok.
    + eapply registry_ok_users; [apply edit_outcome_users | done].
  - rewrite on_close_spec. destruct (Map_has ws (activeUsersMap s)); [|done].
    by eapply registry_ok_release.
  - done.
Qed.

Lemma run_registry_ok (evs : list event) (s : state) :
  registry_ok s → registry_ok (run evs s).1.
Proof.
  revert s. induction evs as [|ev rest IH]; intros s Hok; cbn; [done|].
  specialize (IH (final (handle ev s)) (handle_registry_ok ev s Hok)).
  by destruct (run rest (final (handle ev s))).
Qed.

(** In a well-formed registry two connections never share an identity. *)
Lemma registry_ok_unique (s : state) (ws1 ws2 : conn) (u1 u2 : user) :
  registry_ok s →
  Map_get ws1 (activeUsersMap s) = Some u1 →
  Map_get ws2 (activeUsersMap s) = Some u2 →
  user_id u1 = user_id u2 → ws1 = ws2.
Proof.
  intros [_ Hi _] H1%Map_get_Some_elem H2%Map_get_Some_elem Hid.
  by destruct (identity_names_one_entry _ _ _ _ _ Hi H1 H2 Hid).
Qed.
End Invariant.

Section Packets.
Lemma elem_of_to_all (clients : list client) (m m' : server_msg) (to : conn) :
  (to, m) ∈ to_all clients m' → m = m' ∧ to ∈ recipients clients.
Proof.
  unfold to_all. intros (c & [= -> ->] & Hc)%list_elem_of_fmap. done.
Qed.

Lemma to_all_elem (clients : list client) (m : server_msg) (to : conn) :
  to ∈ recipients clients → (to, m) ∈ to_all clients m.
Proof. intros H. unfold to_all. by apply (list_elem_of_fmap_2 (λ c, (c, m))). Qed.

(** [find] returns the one participant who holds the identity. *)
Lemma author_registered (s : state) (c : conn) (u : user) :
  registry_ok s →
  Map_get c (activeUsersMap s) = Some u →
  author (Some (JStr (user_id u))) s = Some u.
Proof.
  intros [_ Hi _] Hget%Map_get_Some_elem. unfold author.
  destruct (List.find _ _) as [u'|] eqn:Hfind.
  - apply find_some in Hfind as [Hin Heq]. cbn in Heq.
    apply String.eqb_eq in Heq.
    apply list_elem_of_In, list_elem_of_fmap in Hin as ([c' u''] & -> & Hin).
    by destruct (identity_names_one_entry _ _ _ _ _ Hi Hin Hget Heq) as [_ ->].
  - assert (In u (Map_values (activeUsersMap s))) as Hin.
    { apply list_elem_of_In. by apply (list_elem_of_fmap_2 snd _ (c, u)). }
    pose proof (find_none _ _ Hfind u Hin) as Heq. cbn in Heq.
    rewrite String.eqb_refl in Heq. discriminate.
Qed.

Lemma author_unknown (uid : option json) (s : state) :
  (∀ u, u ∈ Map_values (activeUsersMap s) → strict_equal (user_id u) uid = false) →
  author uid s = None.
Proof.
  intros Hno. unfold author.
  destruct (List.find _ _) as [u|] eqn:Hfind; [|done].
  apply find_some in Hfind as [Hin Heq].
  apply list_elem_of_In in Hin. rewrite (Hno u Hin) in Heq. discriminate.
Qed.
End Packets.

Section Roster.

(** Every roster sent lists the participants registered once the handler
    is done. *)
Lemma handle_roster (ev : event) (s : state) (to : conn) (users : list user) :
  (to, userListUpdate users) ∈ sent (handle ev s) →
  users = Map_values (activeUsersMap (final (handle ev s))).
Proof.
  destruct ev as [clients ws|clients ws message rnd|clients ws|ws]; cbn [handle].
  - rewrite on_connection_spec. cbn.
    intros [[=]|[Hin|Hin]%elem_of_app]%elem_of_cons.
    + by apply elem_of_to_all in Hin as [[= ->] _].
    + by apply elem_of_to_all in Hin as [[=] _].
  - destruct (on_message_dispatch clients ws rnd message s)
      as [(p & _ & _ & ->)|[(p & _ & _ & ->)|[_ ->]]].
    + unfold checkUsername_outcome.
      destruct (own_property "username" p) as [[| | |name| |]|];
        try nothing_sent.
      destruct (_ || _)%bool; cbn.
      * intros [=]%list_elem_of_singleton.
      * intros [[=]|[Hin|Hin]%elem_of_app]%elem_of_cons.
        -- by apply elem_of_to_all in Hin as [[= ->] _].
        -- by apply elem_of_to_all in Hin as [[=] _].
    + unfold edit_outcome.
      destruct (own_property "changedLines" p) as [[| | | |items|]|];
        try nothing_sent.
      case_match; cbn.
      * nothing_sent.
      * intros [Hin|Hin]%elem_of_app; by apply elem_of_to_all in Hin as [[=] _].
    + nothing_sent.
  - rewrite on_close_spec. destruct (Map_has ws (activeUsersMap s)); cbn.
    + intros Hin. by apply elem_of_to_all in Hin as [[= ->] _].
    + nothing_sent.
  - nothing_sent.
Qed.

(** An identity nobody holds stays free until an event claims it. *)
Lemma handle_keeps_free (d : string) (ev : event) (s : state) :
  claims d ev = false → d ∉ identities s → d ∉ identities (final (handle ev s)).
Proof.
  intros Hev Hfree.
  destruct ev as [clients ws|clients ws message rnd|clients ws|ws]; cbn [handle].
  - by rewrite on_connection_spec.
  - destruct (on_message_dispatch clients ws rnd message s)
      as [(p & -> & Htype & ->)|[(p & _ & _ & ->)|[-> _]]]; [| |done].
    + cbn in Hev. rewrite Htype in Hev. cbn in Hev.
      unfold checkUsername_outcome.
      destruct (own_property "username" p) as [[| | |name| |]|]; try done.
      destruct (_ || _)%bool; cbn; [done|].
      unfold identities. cbn.
      intros (v & Hv & Hin)%list_elem_of_fmap.
      apply Map_set_values_elem in Hin as [->|Hin].
      * cbn in Hv. apply String.eqb_neq in Hev. congruence.
      * apply Hfree. rewrite Hv. by apply list_elem_of_fmap_2.
    + unfold identities. by rewrite edit_outcome_users.
  - rewrite on_close_spec. destruct (Map_has ws (activeUsersMap s)); [|done].
    unfold identities, Map_values. cbn. intros Hin. apply Hfree.
    eapply sublist_subseteq; [|exact Hin].
    do 2 apply fmap_sublist. apply Map_delete_sublist.
  - done.
Qed.

Lemma run_keeps_free (d : string) (evs : list event) (s : state) :
  Forall (λ ev, claims d ev = false) evs → d ∉ identities s →
  ∀ to users, (to, userListUpdate users) ∈ (run evs s).2 → d ∉ user_id <$> users.
Proof.
  revert s. induction evs as [|ev rest IH]; intros s Hevs Hfree to users; cbn.
  - intros H. by apply elem_of_nil in H.
  - apply Forall_cons in Hevs as [Hev Hrest].
    pose proof (handle_keeps_free d ev s Hev Hfree) as Hfree'.
    specialize (IH (final (handle ev s)) Hrest Hfree' to users).
    destruct (run rest (final (handle ev s))) as [s' out]. cbn in *.
    intros [Hin|Hin]%elem_of_app; [|by apply IH].
    by rewrite (handle_roster ev s to users Hin).
Qed.
End Roster.

Section LineIndices.

Lemma keys_of_natural_numbers_are_indices (items : list json) (k : string) :
  forallb is_natural_number items = true →
  k ∈ (keys_until_throw items).1 → line_index k.
Proof.
  induction items as [|x rest IH]; cbn.
  - intros _ H. by apply elem_of_nil in H.
  - intros [Hx Hrest]%andb_true_iff.
    destruct x as [| |n| | |]; try discriminate. cbn.
    destruct (keys_until_throw rest) as [ks stopped]. cbn in *.
    intros [->|Hin]%elem_of_cons; [|by apply IH].
    exists n. split; [by apply Z.leb_le | done].
Qed.

Lemma handle_keeps_line_indices (ev : event) (s : state) :
  lists_natural_numbers ev = true →
  keys_are_line_indices (lineEdits s) →
  keys_are_line_indices (lineEdits (final (handle ev s))).
Proof.
  intros Hev Hs.
  destruct ev as [clients ws|clients ws message rnd|clients ws|ws]; cbn [handle].
  - by rewrite on_connection_spec.
  - destruct (on_message_dispatch clients ws rnd message s)
      as [(p & _ & _ & ->)|[(p & -> & Htype & ->)|[-> _]]]; [| |done].
    + unfold checkUsername_outcome.
      destruct (own_property "username" p) as [[| | |name| |]|]; try done.
      by destruct (_ || _)%bool.
    + cbn in Hev. rewrite Htype in Hev. cbn in Hev. unfold edit_outcome.
      destruct (own_property "changedLines" p) as [[| | | |items|]|]; try done.
      destruct (author (own_property "userId" p) s) as [u|]; cbn; [|done].
      assert (keys_are_line_indices
                (foldl (assign {| userId := user_id u; color := user_color u |})
                       (lineEdits s) (keys_until_throw items).1)) as Hedits.
      { intros k. rewrite foldl_assign_lookup.
        case_decide as Hk; [|by apply Hs].
        intros _. destruct Hk as [Hk _].
        by eapply keys_of_natural_numbers_are_indices. }
      by destruct ((keys_until_throw items).2).
  - rewrite on_close_spec. by destruct (Map_has ws (activeUsersMap s)).
  - done.
Qed.

(** Every attribution snapshot sent is the mapping the handler leaves. *)
Lemma handle_attribution (ev : event) (s : state) (to : conn)
    (edits : gmap string attribution) :
  (to, lineAttributionUpdate edits) ∈ sent (handle ev s) →
  edits = lineEdits (final (handle ev s)).
Proof.
  destruct ev as [clients ws|clients ws message rnd|clients ws|ws]; cbn [handle].
  - rewrite on_connection_spec. cbn.
    intros [[=]|[Hin|Hin]%elem_of_app]%elem_of_cons.
    + by apply elem_of_to_all in Hin as [[=] _].
    + by apply elem_of_to_all in Hin as [[= ->] _].
  - destruct (on_message_dispatch clients ws rnd message s)
      as [(p & _ & _ & ->)|[(p & _ & _ & ->)|[_ ->]]].
    + unfold checkUsername_outcome.
      destruct (own_property "username" p) as [[| | |name| |]|]; try nothing_sent.
      destruct (_ || _)%bool; cbn.
      * intros [=]%list_elem_of_singleton.
      * intros [[=]|[Hin|Hin]%elem_of_app]%elem_of_cons.
        -- by apply elem_of_to_all in Hin as [[=] _].
        -- by apply elem_of_to_all in Hin as [[= ->] _].
    + unfold edit_outcome.
      destruct (own_property "changedLines" p) as [[| | | |items|]|]; try nothing_sent.
      case_match; cbn.
      * nothing_sent.
      * intros [Hin|Hin]%elem_of_app.
        -- by apply elem_of_to_all in Hin as [[=] _].
        -- by apply elem_of_to_all in Hin as [[= ->] _].
    + nothing_sent.
  - rewrite on_close_spec. destruct (Map_has ws (activeUsersMap s)); cbn.
    + intros Hin. by apply elem_of_to_all in Hin as [[=] _].
    + nothing_sent.
  - nothing_sent.
Qed.

Lemma run_keeps_line_indices (evs : list event) (s : state) :
  forallb lists_natural_numbers evs = true →
  keys_are_line_indices (lineEdits s) →
  keys_are_line_indices (lineEdits (run evs s).1)
  ∧ ∀ to edits, (to, lineAttributionUpdate edits) ∈ (run evs s).2 →
                keys_are_line_indices edits.
Proof.
  revert s. induction evs as [|ev rest IH]; intros s Hevs Hs; cbn.
  - split; [done|]. intros to edits H. by apply elem_of_nil in H.
  - cbn in Hevs. apply andb_true_iff in Hevs as [Hev Hrest].
    pose proof (handle_keeps_line_indices ev s Hev Hs) as Hs'.
    destruct (IH (final (handle ev s)) Hrest Hs') as [IH1 IH2].
    destruct (run rest (final (handle ev s))) as [s' out]. cbn in *.
    split; [done|]. intros to edits [Hin|Hin]%elem_of_app; [|by eapply IH2].
    by rewrite (handle_attribution ev s to edits Hin).
Qed.
Lemma reports_line_numbers_natural (evs : list event) :
  forallb reports_line_numbers evs = true → forallb lists_natural_numbers evs = true.
Proof.
  induction evs as [|ev rest IH]; [done|]. cbn.
  intros [Hev Hrest]%andb_true_iff. rewrite (IH Hrest), andb_true_r.
  destruct ev as [clients ws|clients ws [|v] rnd|clients ws|ws]; try done.
  destruct v as [| | | | |props]; try done. cbn in *.
  destruct (strict_equal "edit" (own_property "type" props)); [|done].
  destruct (own_property "changedLines" props) as [[| | | |items|]|]; try done.
  clear -Hev. induction items as [|x items IH]; [done|]. cbn in *.
  apply andb_true_iff in Hev as [Hx Hitems]. rewrite (IH Hitems), andb_true_r.
  destruct x as [| |n| | |]; try done. cbn in *.
  by apply andb_true_iff in Hx as [-> _].
Qed.
End LineIndices.

(** * The properties of the specification *)

Example scenario_outcome :
  let alice := {| userId := "alice"; color := "#0EA5E9" |} in
  let bob := {| user_id := "bob"; user_color := "#EAB308" |} in
  let '(s, out) := run scenario initial in
  sharedDocumentContent s = Some (JStr ("hello" +:+ LF +:+ "world"))
  ∧ activeUsersMap s = [(2%nat, bob)]
  ∧ lineEdits s = <["0" := alice]> (<["1" := alice]> ∅)
  ∧ (2%nat, usernameRejected) ∈ out
  ∧ (2%nat, lineAttributionUpdate (lineEdits s)) ∈ out
  ∧ last out = Some (2%nat, userListUpdate [bob]).
Proof.
  cbv zeta. destruct (run scenario initial) as [s out] eqn:Hrun.
  vm_compute in Hrun. injection Hrun as <- <-.
  split_and!; try reflexivity; repeat first [left | right].
Qed.

(** C1. Along every sequence of events handled from the initial state, and so
    along every sequence of [checkUsername] messages, two connections that
    are registered at the same time never hold the same identity (the
    identities stored are the trimmed names). And from any state, a
    [checkUsername] message is answered [usernameAccepted] only with the
    trimmed requested name and only if no registered participant's identity
    equals it, the comparison being equality of strings. *)
Theorem identity_held_by_one_connection (evs : list event) :
  (∀ (ws1 ws2 : conn) (u1 u2 : user),
      Map_get ws1 (activeUsersMap (run evs initial).1) = Some u1 →
      Map_get ws2 (activeUsersMap (run evs initial).1) = Some u2 →
      user_id u1 = user_id u2 → ws1 = ws2)
  ∧ (∀ (clients : list client) (ws : conn) (rnd : nat) (s : state)
       (props : list (string * json)) (name d : string),
      own_property "type" props = Some (JStr "checkUsername") →
      own_property "username" props = Some (JStr name) →
      (ws, usernameAccepted d) ∈ sent (on_message clients ws (Json (JObj props)) rnd s) →
      d = trim name
      ∧ ∀ (c : conn) (u : user),
          Map_get c (activeUsersMap s) = Some u → user_id u ≠ trim name).
Proof.
  split.
  - intros ws1 ws2 u1 u2. apply registry_ok_unique.
    apply run_registry_ok, registry_ok_initial.
  - intros clients ws rnd s props name d Htype Hname.
    rewrite on_message_checkUsername by done.
    unfold checkUsername_outcome. rewrite Hname.
    destruct (String.eqb (trim name) "") eqn:He; cbn.
    { intros [=]%list_elem_of_singleton. }
    destruct (isTaken (trim name) s) eqn:Htaken; cbn.
    { intros [=]%list_elem_of_singleton. }
    intros [[= ->]|[Hin|Hin]%elem_of_app]%elem_of_cons.
    + split; [done|]. intros c u Hget%Map_get_Some_elem Hid.
      apply isTaken_false in Htaken. apply Htaken. rewrite <-Hid.
      unfold identities, Map_values.
      apply list_elem_of_fmap_2. by apply (list_elem_of_fmap_2 snd _ (c, u)).
    + by apply elem_of_to_all in Hin as [[=] _].
    + by apply elem_of_to_all in Hin as [[=] _].
Qed.

(** C2. In a registry as every run leaves it ([registry_ok]), an [edit]
    message whose [changedLines] is a list of safe integers and whose
    [userId] is the identity of a registered participant [u] runs to its
    end; afterwards the shared document is the [content] of the message,
    what was sent is a [documentUpdate] with that content to every open
    connection followed by the [lineAttributionUpdate] broadcast, and for
    every [i] of [changedLines] the entry [lineEdits[i]] is
    [{ userId, color }] with the color of [u]. *)
Theorem edit_by_registered_user
    (clients : list client) (ws : conn) (rnd : nat) (s : state)
    (props : list (string * json)) (lines : list Z) (c : conn) (u : user) :
  registry_ok s →
  own_property "type" props = Some (JStr "edit") →
  own_property "changedLines" props = Some (JArr (JNum <$> lines)) →
  forallb safe_integer lines = true →
  own_property "userId" props = Some (JStr (user_id u)) →
  Map_get c (activeUsersMap s) = Some u →
  let content := own_property "content" props in
  let r := on_message clients ws (Json (JObj props)) rnd s in
  returned r = inr tt
  ∧ sharedDocumentContent (final r) = content
  ∧ sent r = (to_all clients (documentUpdate content)
              ++ to_all clients (lineAttributionUpdate (lineEdits (final r))))%list
  ∧ (∀ to, to ∈ recipients clients → (to, documentUpdate content) ∈ sent r)
  ∧ (∀ i, i ∈ lines →
       lineEdits (final r) !! pretty i
       = Some {| userId := user_id u; color := user_color u |}).
Proof.
  intros Hok Htype Hlines Hsafe Huid Hget content r.
  assert (r = edit_outcome clients props s) as Hr by by apply on_message_edit.
  clearbody r. subst r. unfold edit_outcome.
  rewrite Hlines, Huid, (author_registered s c u Hok Hget), keys_of_line_numbers.
  cbn. split_and!; try done.
  - intros to Hto. apply elem_of_app. left. by apply to_all_elem.
  - intros i Hi. rewrite foldl_assign_lookup, decide_True; [done|].
    split; [by apply list_elem_of_fmap_2|].
    intros Heq. pose proof (pretty_Z_not_proto i) as Hp.
    rewrite Heq in Hp. discriminate.
Qed.

Lemma edit_by_registered_user_witness :
  let s := (run [Message [(1%nat, OPEN)] 1%nat (checkUsername_msg "alice") 0] initial).1 in
  let r := on_message [(1%nat, OPEN)] 1%nat (edit_msg "alice" "hello" [0; 1]) 0 s in
  returned r = inr tt
  ∧ sharedDocumentContent (final r) = Some (JStr "hello")
  ∧ lineEdits (final r) !! "1" = Some {| userId := "alice"; color := "#EF4444" |}.
Proof.
  intros s r.
  destruct (edit_by_registered_user [(1%nat, OPEN)] 1%nat 0 s
              [("type", JStr "edit"); ("userId", JStr "alice");
               ("content", JStr "hello"); ("changedLines", JArr (JNum <$> [0; 1]))]
              [0; 1] 1%nat {| user_id := "alice"; user_color := "#EF4444" |})
    as (H1 & H2 & _ & _ & H5).
  - apply run_registry_ok, registry_ok_initial.
  - reflexivity.
  - reflexivity.
  - reflexivity.
  - reflexivity.
  - reflexivity.
  - split_and!; [exact H1 | exact H2 |].
    apply (H5 1). right. left.
Defined.

(** C3. A [checkUsername] message whose username is empty after trimming, or
    whose trimmed username is the identity of a registered participant, is
    answered by [usernameRejected] to the sender and by nothing else: the
    run returns the state it started from (registry, document and
    attribution) and no other message, so no broadcast, is sent. *)
Theorem rejected_claim_changes_nothing
    (clients : list client) (ws : conn) (rnd : nat) (s : state)
    (props : list (string * json)) (name : string) :
  own_property "type" props = Some (JStr "checkUsername") →
  own_property "username" props = Some (JStr name) →
  (trim name = ""
   ∨ ∃ (c : conn) (u : user),
       Map_get c (activeUsersMap s) = Some u ∧ user_id u = trim name) →
  on_message clients ws (Json (JObj props)) rnd s
  = Result (inr tt) s [(ws, usernameRejected)].
Proof.
  intros Htype Hname Hbad.
  rewrite on_message_checkUsername by done.
  unfold checkUsername_outcome. rewrite Hname.
  destruct Hbad as [->|(c & u & Hget%Map_get_Some_elem & Hid)]; [done|].
  assert (isTaken (trim name) s = true) as ->.
  { apply isTaken_true. rewrite <-Hid. unfold identities, Map_values.
    apply list_elem_of_fmap_2. by apply (list_elem_of_fmap_2 snd _ (c, u)). }
  by rewrite orb_true_r.
Qed.

Lemma rejected_claim_changes_nothing_witness :
  on_message [(1%nat, OPEN); (2%nat, OPEN)] 2%nat (checkUsername_msg "  ") 5 initial
  = Result (inr tt) initial [(2%nat, usernameRejected)].
Proof.
  apply (rejected_claim_changes_nothing _ _ _ _ _ "  "); [reflexivity | reflexivity |].
  left. reflexivity.
Defined.

(** C4 fails on the code: [JSON.parse] throws and nothing in the handler
    catches, so the run of the handler ends with [SyntaxError]. *)
Lemma unparseable_frame_is_not_dropped :
  returned (on_message [(1%nat, OPEN)] 1%nat Unparseable 0 initial) = inl SyntaxError
  ∧ ¬ drops_unparseable_frames.
Proof.
  split; [reflexivity|].
  intros H. specialize (H [(1%nat, OPEN)] 1%nat 0%nat initial). discriminate H.
Qed.

(** C4, amended. On a frame that is no JSON the message handler throws the
    parse error, which it does not catch; it has then changed nothing of the
    shared state (registry, document, attribution) and sent nothing. If the
    host goes on delivering events, they are handled from that unchanged
    state. *)
Theorem unparseable_frame_throws
    (clients : list client) (ws : conn) (rnd : nat) (s : state) (evs : list event) :
  on_message clients ws Unparseable rnd s = Result (inl SyntaxError) s []
  ∧ run (Message clients ws Unparseable rnd :: evs) s = run evs s.
Proof.
  split; [reflexivity|]. cbn. by destruct (run evs s).
Qed.

(** C5. In a registry as every run leaves it ([registry_ok]): when a
    connection closes, the document and every entry of
    [lineEdits] are as before. If the connection was named, its entry leaves
    the registry, the roster without it is broadcast, and its identity is in
    no [userListUpdate] sent from then on, for as long as no [checkUsername]
    claims that name anew. If it was not named, the state is unchanged and
    nothing is sent. *)
Theorem close_releases_participant (clients : list client) (ws : conn) (s : state) :
  registry_ok s →
  let r := on_close clients ws s in
  returned r = inr tt
  ∧ lineEdits (final r) = lineEdits s
  ∧ sharedDocumentContent (final r) = sharedDocumentContent s
  ∧ match Map_get ws (activeUsersMap s) with
    | Some u =>
        Map_get ws (activeUsersMap (final r)) = None
        ∧ (∀ ws', ws' ≠ ws →
             Map_get ws' (activeUsersMap (final r)) = Map_get ws' (activeUsersMap s))
        ∧ sent r = to_all clients (userListUpdate (Map_values (activeUsersMap (final r))))
        ∧ ∀ (evs : list event),
            Forall (λ ev, claims (user_id u) ev = false) evs →
            ∀ to users,
              (to, userListUpdate users) ∈ (sent r ++ (run evs (final r)).2)%list →
              user_id u ∉ user_id <$> users
    | None => r = Result (inr tt) s []
    end.
Proof.
  intros Hok r. subst r. rewrite on_close_spec. unfold Map_has.
  destruct (Map_get ws (activeUsersMap s)) as [u|] eqn:Hget; cbn; [|done].
  split_and!; try done.
  - apply Map_delete_get_eq, Hok.
  - intros ws' Hne. by apply Map_delete_get_ne.
  - assert (user_id u ∉ identities
              {| sharedDocumentContent := sharedDocumentContent s;
                 activeUsersMap := Map_delete ws (activeUsersMap s);
                 lineEdits := lineEdits s |}) as Hfree.
    { unfold identities, Map_values. cbn.
      intros (v & Hv & ([k v'] & -> & Hin)%list_elem_of_fmap)%list_elem_of_fmap.
      cbn in Hv.
      assert ((k, v') ∈ activeUsersMap s) as Hin'.
      { eapply sublist_subseteq; [apply Map_delete_sublist | exact Hin]. }
      destruct (identity_names_one_entry _ _ _ _ _ (one_per_identity s Hok)
                  (Map_get_Some_elem _ _ _ Hget) Hin' Hv) as [<- <-].
      apply (elem_Map_get ws) in Hin.
      - rewrite Map_delete_get_eq in Hin; [done | apply Hok].
      - eapply sublist_NoDup; [apply (one_per_connection s Hok)|].
        apply fmap_sublist, Map_delete_sublist. }
    intros evs Hevs to users [Hin|Hin]%elem_of_app.
    + apply elem_of_to_all in Hin as [[= ->] _]. exact Hfree.
    + by eapply run_keeps_free.
Qed.

Lemma close_releases_participant_witness :
  let s := (run [Message [(1%nat, OPEN)] 1%nat (checkUsername_msg "alice") 0;
                 Message [(1%nat, OPEN); (2%nat, OPEN)] 2%nat (checkUsername_msg "bob") 1;
                 Message [(1%nat, OPEN); (2%nat, OPEN)] 1%nat (edit_msg "alice" "hi" [0]) 0]
                initial).1 in
  let r := on_close [(2%nat, OPEN)] 1%nat s in
  lineEdits (final r) = lineEdits s
  ∧ sent r = [(2%nat, userListUpdate [{| user_id := "bob"; user_color := "#F97316" |}])].
Proof.
  intros s r.
  destruct (close_releases_participant [(2%nat, OPEN)] 1%nat s) as (_ & H2 & _ & H4).
  - apply run_registry_ok, registry_ok_initial.
  - split; [exact H2|].
    change (Map_get 1%nat (activeUsersMap s))
      with (Some {| user_id := "alice"; user_color := "#EF4444" |}) in H4.
    destruct H4 as (_ & _ & H & _). unfold r. rewrite H. reflexivity.
Defined.

(** C6. An [edit] message whose [changedLines] holds no number beyond the
    safe integers leaves every entry of [lineEdits] whose key no element of
    [changedLines] denotes exactly as it was, whatever the new content and
    however few lines it has; for a list of line numbers that is every index
    not listed. *)
Theorem edit_leaves_unlisted_lines
    (clients : list client) (ws : conn) (rnd : nat) (s : state)
    (props : list (string * json)) (k : string) :
  own_property "type" props = Some (JStr "edit") →
  (∀ items x, own_property "changedLines" props = Some (JArr items) →
              x ∈ items → safe_numbers x = true) →
  (∀ items x, own_property "changedLines" props = Some (JArr items) →
              x ∈ items → ToString x ≠ Some k) →
  lineEdits (final (on_message clients ws (Json (JObj props)) rnd s)) !! k
  = lineEdits s !! k.
Proof.
  intros Htype Hsafe Hk. rewrite on_message_edit by done. unfold edit_outcome.
  destruct (own_property "changedLines" props) as [[| | | |items|]|]; try done.
  specialize (Hk items).
  destruct (author (own_property "userId" props) s) as [u|]; cbn; [|done].
  assert (foldl (assign {| userId := user_id u; color := user_color u |})
                (lineEdits s) (keys_until_throw items).1 !! k = lineEdits s !! k) as Hgoal.
  { rewrite foldl_assign_lookup, decide_False; [done|].
    intros [Hin _]. clear -Hin Hk.
    induction items as [|x rest IH]; cbn in Hin; [by apply elem_of_nil in Hin|].
    destruct (ToString x) as [key|] eqn:Hx; [|by apply elem_of_nil in Hin].
    destruct (keys_until_throw rest) as [ks stopped]. cbn in *.
    apply elem_of_cons in Hin as [->|Hin].
    - apply (Hk x); [done | left | done].
    - apply IH; [|done]. intros y _ Hy. apply Hk; [done | by right]. }
  by destruct ((keys_until_throw items).2).
Qed.

Lemma edit_leaves_unlisted_lines_witness :
  let s := (run [Message [(1%nat, OPEN)] 1%nat (checkUsername_msg "alice") 0;
                 Message [(1%nat, OPEN)] 1%nat (edit_msg "alice" ("a" +:+ LF +:+ "b" +:+ LF +:+ "c") [0; 1; 2]) 0]
                initial).1 in
  lineEdits (final (on_message [(1%nat, OPEN)] 1%nat (edit_msg "alice" "z" [0]) 0 s)) !! "2"
  = Some {| userId := "alice"; color := "#EF4444" |}.
Proof.
  intros s. unfold edit_msg.
  rewrite (edit_leaves_unlisted_lines _ _ _ s _ "2"); [reflexivity | reflexivity | |].
  - intros items x [= <-] [->|Hin]%elem_of_cons; [reflexivity|].
    by apply elem_of_nil in Hin.
  - intros items x [= <-] [->|Hin]%elem_of_cons; [discriminate|].
    by apply elem_of_nil in Hin.
Defined.

(** C7. An [edit] message handled twice in a row leaves the state the first
    handling left, document and [lineEdits] included, and the second
    handling ends and sends as the first did. *)
Theorem edit_twice_is_edit_once
    (clients : list client) (ws : conn) (rnd rnd' : nat) (s : state)
    (props : list (string * json)) :
  own_property "type" props = Some (JStr "edit") →
  let once := on_message clients ws (Json (JObj props)) rnd s in
  let twice := on_message clients ws (Json (JObj props)) rnd' (final once) in
  final twice = final once
  ∧ sharedDocumentContent (final twice) = sharedDocumentContent (final once)
  ∧ lineEdits (final twice) = lineEdits (final once)
  ∧ returned twice = returned once
  ∧ sent twice = sent once.
Proof.
  intros Htype once twice.
  assert (twice = once) as ->; [|done].
  subst twice once. rewrite !on_message_edit by done.
  unfold edit_outcome at 1.
  rewrite edit_outcome_users.
  assert (∀ uid, author uid (final (edit_outcome clients props s)) = author uid s) as ->.
  { intros uid. unfold author. by rewrite edit_outcome_users. }
  unfold edit_outcome.
  destruct (own_property "changedLines" props) as [[| | | |items|]|]; try done.
  destruct (author (own_property "userId" props) s) as [u|]; cbn.
  - destruct (keys_until_throw items) as [ks [|]]; cbn.
    + by rewrite foldl_assign_twice.
    + by rewrite foldl_assign_twice.
  - done.
Qed.

Lemma edit_twice_is_edit_once_witness :
  let s := (run [Message [(1%nat, OPEN)] 1%nat (checkUsername_msg "alice") 0] initial).1 in
  let once := on_message [(1%nat, OPEN)] 1%nat (edit_msg "alice" "hello" [0; 3]) 0 s in
  let twice := on_message [(1%nat, OPEN)] 1%nat (edit_msg "alice" "hello" [0; 3]) 0 (final once) in
  lineEdits (final twice) = lineEdits (final once)
  ∧ sharedDocumentContent (final twice) = Some (JStr "hello").
Proof.
  intros s once twice.
  destruct (edit_twice_is_edit_once [(1%nat, OPEN)] 1%nat 0 0 s
              [("type", JStr "edit"); ("userId", JStr "alice");
               ("content", JStr "hello"); ("changedLines", JArr (JNum <$> [0; 3]))])
    as (_ & H2 & H3 & _); [reflexivity|].
  split; [exact H3|]. etrans; [exact H2 | reflexivity].
Defined.

(** C8 fails on the code: nothing checks [changedLines], and an edit that
    lists [-1] leaves the key [-1] in [lineEdits]. *)
Lemma negative_line_becomes_a_key :
  let evs := [Connection [(1%nat, OPEN)] 1%nat;
              Message [(1%nat, OPEN)] 1%nat (checkUsername_msg "alice") 0;
              Message [(1%nat, OPEN)] 1%nat (edit_msg "alice" "x" [-1]) 0] in
  lineEdits (run evs initial).1 !! "-1" = Some {| userId := "alice"; color := "#EF4444" |}
  ∧ ¬ keys_are_line_indices (lineEdits (run evs initial).1)
  ∧ ¬ lineEdits_keys_always_indices.
Proof.
  intros evs.
  assert (lineEdits (run evs initial).1 !! "-1"
          = Some {| userId := "alice"; color := "#EF4444" |}) as Hkey by reflexivity.
  assert (¬ keys_are_line_indices (lineEdits (run evs initial).1)) as Hno.
  { intros H. destruct (H "-1") as (n & Hn & Heq); [by rewrite Hkey|].
    change "-1" with (pretty (-1)) in Heq.
    apply (inj pretty) in Heq. lia. }
  split_and!; [done | done |]. intros H. apply Hno, H.
Qed.

(** C8, amended. The server does not check [changedLines]. Along every
    sequence of events in which each [edit] message lists only safe integers
    that are at least 0 (integers from 0 to 2^53 - 1), every key of
    [lineEdits], and of every [lineAttributionUpdate] sent, is a zero-based
    line index. *)
Theorem lineEdits_keys_are_reported_lines (evs : list event) :
  forallb reports_line_numbers evs = true →
  keys_are_line_indices (lineEdits (run evs initial).1)
  ∧ ∀ to edits, (to, lineAttributionUpdate edits) ∈ (run evs initial).2 →
                keys_are_line_indices edits.
Proof.
  intros Hevs. apply run_keeps_line_indices; [by apply reports_line_numbers_natural|].
  intros k [a Ha]. cbn in Ha. by rewrite lookup_empty in Ha.
Qed.

Lemma lineEdits_keys_are_reported_lines_witness :
  keys_are_line_indices
    (lineEdits (run [Connection [(1%nat, OPEN)] 1%nat;
                     Message [(1%nat, OPEN)] 1%nat (checkUsername_msg "alice") 0;
                     Message [(1%nat, OPEN)] 1%nat (edit_msg "alice" "x" [0; 7]) 0]
                    initial).1).
Proof.
  apply (lineEdits_keys_are_reported_lines
           [Connection [(1%nat, OPEN)] 1%nat;
            Message [(1%nat, OPEN)] 1%nat (checkUsername_msg "alice") 0;
            Message [(1%nat, OPEN)] 1%nat (edit_msg "alice" "x" [0; 7]) 0]).
  reflexivity.
Defined.

(** C9. An [edit] message with an array for [changedLines] and a [userId]
    that is the identity of no registered participant still replaces the
    document by its [content] and still broadcasts [documentUpdate] and
    [lineAttributionUpdate] to every open connection; [lineEdits] and the
    registry are as before, and the sender is told of no error: the handler
    returns normally and the two broadcasts are all that is sent. *)
Theorem edit_by_unknown_user
    (clients : list client) (ws : conn) (rnd : nat) (s : state)
    (props : list (string * json)) (items : list json) :
  own_property "type" props = Some (JStr "edit") →
  own_property "changedLines" props = Some (JArr items) →
  (∀ u, u ∈ Map_values (activeUsersMap s) →
        strict_equal (user_id u) (own_property "userId" props) = false) →
  on_message clients ws (Json (JObj props)) rnd s
  = Result (inr tt)
      {| sharedDocumentContent := own_property "content" props;
         activeUsersMap := activeUsersMap s;
         lineEdits := lineEdits s |}
      (to_all clients (documentUpdate (own_property "content" props))
         ++ to_all clients (lineAttributionUpdate (lineEdits s)))%list.
Proof.
  intros Htype Hlines Hunknown.
  rewrite on_message_edit by done. unfold edit_outcome.
  by rewrite Hlines, (author_unknown _ s Hunknown).
Qed.

Lemma edit_by_unknown_user_witness :
  let s := (run [Message [(1%nat, OPEN)] 1%nat (checkUsername_msg "alice") 0;
                 Message [(1%nat, OPEN)] 1%nat (edit_msg "alice" "mine" [0]) 0] initial).1 in
  let r := on_message [(1%nat, OPEN); (2%nat, CLOSING)] 2%nat
             (edit_msg "mallory" "yours" [0; 1]) 0 s in
  returned r = inr tt
  ∧ sharedDocumentContent (final r) = Some (JStr "yours")
  ∧ lineEdits (final r) = lineEdits s
  ∧ sent r = [(1%nat, documentUpdate (Some (JStr "yours")));
              (1%nat, lineAttributionUpdate (lineEdits s))].
Proof.
  intros s r. unfold r, edit_msg.
  rewrite (edit_by_unknown_user _ _ _ s _ (JNum <$> [0; 1])).
  - split_and!; reflexivity.
  - reflexivity.
  - reflexivity.
  - intros u [->|Hin]%elem_of_cons; [reflexivity|]. by apply elem_of_nil in Hin.
Defined.

(** C10. In a registry as every run leaves it ([registry_ok]): a connection
    that holds an identity and sends [checkUsername] with a
    name that, trimmed, is not empty and is no registered participant's
    identity, is accepted. Its entry of the registry is overwritten, in
    place, with the new identity and the color drawn for this claim; the
    other entries stay. The identity it held is then held by nobody, so a
    later [checkUsername] for it from any connection is accepted. The
    registry still has one entry per connection and one connection per
    identity. *)
Theorem rename_frees_previous_identity
    (clients : list client) (ws : conn) (rnd : nat) (s : state)
    (props : list (string * json)) (name : string) (old : user) :
  registry_ok s →
  own_property "type" props = Some (JStr "checkUsername") →
  own_property "username" props = Some (JStr name) →
  Map_get ws (activeUsersMap s) = Some old →
  trim name ≠ "" →
  (∀ c u, Map_get c (activeUsersMap s) = Some u → user_id u ≠ trim name) →
  let r := on_message clients ws (Json (JObj props)) rnd s in
  let new := {| user_id := trim name; user_color := getRandomColor rnd |} in
  returned r = inr tt
  ∧ (ws, usernameAccepted (trim name)) ∈ sent r
  ∧ Map_get ws (activeUsersMap (final r)) = Some new
  ∧ (∀ ws', ws' ≠ ws →
       Map_get ws' (activeUsersMap (final r)) = Map_get ws' (activeUsersMap s))
  ∧ List.length (activeUsersMap (final r)) = List.length (activeUsersMap s)
  ∧ isTaken (user_id old) (final r) = false
  ∧ (∀ clients' ws' rnd' name',
       trim name' = user_id old →
       (ws', usernameAccepted (user_id old))
         ∈ sent (on_message clients' ws' (checkUsername_msg name') rnd' (final r)))
  ∧ NoDup (activeUsersMap (final r)).*1
  ∧ registry_ok (final r).
Proof.
  intros Hok Htype Hname Hget Hne Hfree r new.
  assert (isTaken (trim name) s = false) as Htaken.
  { apply isTaken_false. unfold identities, Map_values.
    intros (u & Hu & ([c u'] & -> & Hin)%list_elem_of_fmap)%list_elem_of_fmap.
    apply (Hfree c u'); [|done].
    apply elem_Map_get; [apply (one_per_connection s Hok) | done]. }
  assert (r = Result (inr tt)
            {| sharedDocumentContent := sharedDocumentContent s;
               activeUsersMap := Map_set ws new (activeUsersMap s);
               lineEdits := lineEdits s |}
            ((ws, usernameAccepted (trim name))
               :: to_all clients (userListUpdate (Map_values (Map_set ws new (activeUsersMap s))))
               ++ to_all clients (lineAttributionUpdate (lineEdits s)))%list) as Hr.
  { subst r. rewrite on_message_checkUsername by done.
    unfold checkUsername_outcome. rewrite Hname, Htaken.
    by destruct (String.eqb_spec (trim name) ""). }
  clearbody r. subst r. cbn [returned final sent activeUsersMap].
  assert (registry_ok
            {| sharedDocumentContent := sharedDocumentContent s;
               activeUsersMap := Map_set ws new (activeUsersMap s);
               lineEdits := lineEdits s |}) as Hok'.
  { eapply registry_ok_claim; [reflexivity | done | | done]. by apply isTaken_false. }
  assert (isTaken (user_id old)
            {| sharedDocumentContent := sharedDocumentContent s;
               activeUsersMap := Map_set ws new (activeUsersMap s);
               lineEdits := lineEdits s |} = false) as Hold.
  { apply isTaken_false. unfold identities, Map_values. cbn.
    intros (u & Hu & ([c u'] & -> & Hin)%list_elem_of_fmap)%list_elem_of_fmap.
    cbn in Hu.
    apply Map_set_elem in Hin as [[-> ->]|[Hc Hin]]; [| |apply (one_per_connection s Hok)].
    - apply (Hfree ws old); [done | by rewrite Hu].
    - destruct (identity_names_one_entry _ _ _ _ _ (one_per_identity s Hok)
                  (Map_get_Some_elem _ _ _ Hget) Hin Hu) as [<- _]. done. }
  split_and!.
  - done.
  - left.
  - apply Map_set_get_eq.
  - intros ws' Hws. by apply Map_set_get_ne.
  - apply Map_set_length. unfold Map_has. by rewrite Hget.
  - exact Hold.
  - intros clients' ws' rnd' name' Hname'. unfold checkUsername_msg.
    rewrite on_message_checkUsername by done.
    unfold checkUsername_outcome. cbn [own_property String.eqb Ascii.eqb Bool.eqb].
    cbn -[trim isTaken]. rewrite Hname', Hold.
    destruct (String.eqb_spec (user_id old) "") as [He|He]; cbn; [|left].
    exfalso. apply (identities_nonempty s Hok). rewrite <-He.
    unfold identities, Map_values. apply list_elem_of_fmap_2.
    apply (list_elem_of_fmap_2 snd _ (ws, old)). by apply Map_get_Some_elem.
  - apply Hok'.
  - exact Hok'.
Qed.

Lemma rename_frees_previous_identity_witness :
  let s := (run [Message [(1%nat, OPEN)] 1%nat (checkUsername_msg "alice") 0;
                 Message [(1%nat, OPEN); (2%nat, OPEN)] 2%nat (checkUsername_msg "bob") 1]
                initial).1 in
  let r := on_message [(1%nat, OPEN); (2%nat, OPEN)] 1%nat (checkUsername_msg " carol ") 2 s in
  activeUsersMap (final r)
  = [(1%nat, {| user_id := "carol"; user_color := "#EAB308" |});
     (2%nat, {| user_id := "bob"; user_color := "#F97316" |})]
  ∧ isTaken "alice" (final r) = false.
Proof.
  intros s r.
  destruct (rename_frees_previous_identity [(1%nat, OPEN); (2%nat, OPEN)] 1%nat 2 s
              [("type", JStr "checkUsername"); ("username", JStr " carol ")] " carol "
              {| user_id := "alice"; user_color := "#EF4444" |})
    as (_ & _ & _ & _ & _ & H6 & _).
  - apply run_registry_ok, registry_ok_initial.
  - reflexivity.
  - reflexivity.
  - reflexivity.
  - discriminate.
  - intros c u Hget. vm_compute in Hget.
    destruct c as [|[|[|c]]]; try discriminate Hget;
      injection Hget as <-; vm_compute; discriminate.
  - split; [reflexivity | exact H6].
Defined.

(** * Further properties of the server *)

Section Trim.
Lemma trimStart_head (s : string) (a : ascii) (t : string) :
  trimStart s = String a t → is_white_space a = false.
Proof.
  induction s as [|b rest IH]; cbn; [discriminate|].
  destruct (is_white_space b) eqn:Hb; [done|].
  by intros [= <- <-].
Qed.

Lemma trimStart_fixed (a : ascii) (t : string) :
  is_white_space a = false → trimStart (String a t) = String a t.
Proof. intros H. cbn. by rewrite H. Qed.

Lemma trimEnd_head (a : ascii) (t : string) :
  is_white_space a = false → ∃ t', trimEnd (String a t) = String a t'.
Proof.
  intros H. cbn. rewrite H. destruct (trimEnd t); eauto.
Qed.

Lemma trimEnd_twice (s : string) : trimEnd (trimEnd s) = trimEnd s.
Proof.
  induction s as [|a rest IH]; [done|]. cbn.
  destruct (trimEnd rest) as [|b kept] eqn:Hrest.
  - destruct (is_white_space a) eqn:Ha; [done|]. cbn. by rewrite Ha.
  - cbn [trimEnd] in *. by rewrite IH.
Qed.

Lemma trim_twice (s : string) : trim (trim s) = trim s.
Proof.
  unfold trim. destruct (trimStart s) as [|a t] eqn:Hs; [done|].
  apply trimStart_head in Hs.
  destruct (trimEnd_head a t Hs) as [t' Ht]. rewrite Ht.
  rewrite (trimStart_fixed a t' Hs), <-Ht. apply trimEnd_twice.
Qed.
End Trim.

Section Values.
Lemma getRandomColor_in_palette (rnd : nat) : getRandomColor rnd ∈ colors.
Proof.
  unfold getRandomColor. apply list_elem_of_In, nth_In.
  apply Nat.mod_upper_bound. discriminate.
Qed.

Lemma author_is_registered (uid : option json) (s : state) (u : user) :
  author uid s = Some u → u ∈ Map_values (activeUsersMap s).
Proof. intros [Hin _]%find_some. by apply list_elem_of_In. Qed.

Lemma recipients_open (clients : list client) (to : conn) :
  to ∈ recipients clients → (to, OPEN) ∈ clients.
Proof.
  unfold recipients.
  intros ([c rs] & -> & [Hrs Hin]%list_elem_of_filter)%list_elem_of_fmap.
  cbn in *. by subst rs.
Qed.

Lemma Map_set_absent (ws : conn) (u : user) (m : list (conn * user)) :
  Map_get ws m = None → Map_set ws u m = (m ++ [(ws, u)])%list.
Proof.
  induction m as [|[k v] rest IH]; cbn; [done|].
  destruct (Nat.eqb k ws); [discriminate|]. intros H. by rewrite IH.
Qed.

Lemma values_ok_initial : values_ok initial.
Proof.
  split.
  - intros u H. by apply elem_of_nil in H.
  - intros k a H. cbn in H. by rewrite lookup_empty in H.
Qed.

Lemma handle_values_ok (ev : event) (s : state) :
  values_ok s → values_ok (final (handle ev s)).
Proof.
  intros Hok. pose proof Hok as [Hu He].
  destruct ev as [clients ws|clients ws message rnd|clients ws|ws]; cbn [handle].
  - by rewrite on_connection_spec.
  - destruct (on_message_dispatch clients ws rnd message s)
      as [(p & _ & _ & ->)|[(p & _ & _ & ->)|[-> _]]]; [| |done].
    + unfold checkUsername_outcome.
      destruct (own_property "username" p) as [[| | |name| |]|]; try done.
      destruct (String.eqb_spec (trim name) "") as [Hempty|Hname]; cbn; [done|].
      destruct (isTaken (trim name) s); cbn; [done|].
      split; [|done]. cbn. intros u [->|Hin]%Map_set_values_elem; [|by apply Hu].
      cbn. split; [split; [done | apply trim_twice] | apply getRandomColor_in_palette].
    + split; [by rewrite edit_outcome_users|].
      unfold edit_outcome.
      destruct (own_property "changedLines" p) as [[| | | |items|]|]; try done.
      destruct (author (own_property "userId" p) s) as [u|] eqn:Hau; cbn.
      * assert (∀ k a,
          foldl (assign {| userId := user_id u; color := user_color u |})
                (lineEdits s) (keys_until_throw items).1 !! k = Some a →
          name_ok (userId a) ∧ color a ∈ colors) as Hfold.
        { intros k a. rewrite foldl_assign_lookup.
          case_decide; [|by apply He].
          intros [= <-]. cbn. apply Hu. by eapply author_is_registered. }
        by destruct ((keys_until_throw items).2).
      * done.
  - rewrite on_close_spec. destruct (Map_has ws (activeUsersMap s)); [|done].
    split; [|done]. cbn. intros u Hin. apply Hu.
    eapply sublist_subseteq; [|exact Hin].
    apply fmap_sublist, Map_delete_sublist.
  - done.
Qed.
End Values.

(** X1. Whatever a handler sends goes where it should: a reply to a name
    claim goes to the sender alone, a roster or an attribution snapshot only
    to clients whose [readyState] is [OPEN], and a document snapshot to such
    clients or, on connection, to the connection that has just arrived. *)
Theorem packets_reach_only_open_clients
    (ev : event) (s : state) (to : conn) (m : server_msg) :
  (to, m) ∈ sent (handle ev s) →
  match m with
  | usernameAccepted _ | usernameRejected => to = ws_of ev
  | userListUpdate _ | lineAttributionUpdate _ => (to, OPEN) ∈ clients_of ev
  | documentUpdate _ =>
      (to, OPEN) ∈ clients_of ev ∨ (∃ clients, ev = Connection clients to)
  end.
Proof.
  destruct ev as [clients ws|clients ws message rnd|clients ws|ws]; cbn [handle clients_of ws_of].
  - rewrite on_connection_spec. cbn.
    intros [[= -> ->]|[Hin|Hin]%elem_of_app]%elem_of_cons.
    + right. by exists clients.
    + apply elem_of_to_all in Hin as [-> Hin]. by apply recipients_open.
    + apply elem_of_to_all in Hin as [-> Hin]. by apply recipients_open.
  - destruct (on_message_dispatch clients ws rnd message s)
      as [(p & _ & _ & ->)|[(p & _ & _ & ->)|[_ ->]]].
    + unfold checkUsername_outcome.
      destruct (own_property "username" p) as [[| | |name| |]|]; try nothing_sent.
      destruct (_ || _)%bool; cbn.
      * by intros [= -> ->]%list_elem_of_singleton.
      * intros [[= -> ->]|[Hin|Hin]%elem_of_app]%elem_of_cons; [done|..];
          apply elem_of_to_all in Hin as [-> Hin]; by apply recipients_open.
    + unfold edit_outcome.
      destruct (own_property "changedLines" p) as [[| | | |items|]|]; try nothing_sent.
      case_match; cbn; [nothing_sent|].
      intros [Hin|Hin]%elem_of_app; apply elem_of_to_all in Hin as [-> Hin].
      * left. by apply recipients_open.
      * by apply recipients_open.
    + nothing_sent.
  - rewrite on_close_spec. destruct (Map_has ws (activeUsersMap s)); cbn; [|nothing_sent].
    intros Hin. apply elem_of_to_all in Hin as [-> Hin]. by apply recipients_open.
  - nothing_sent.
Qed.

Lemma packets_reach_only_open_clients_witness :
  let ev := Close [(1%nat, OPEN); (2%nat, CLOSING)] 2%nat in
  let s := {| sharedDocumentContent := Some (JStr "");
              activeUsersMap := [(2%nat, {| user_id := "bob"; user_color := "#EF4444" |})];
              lineEdits := ∅ |} in
  (1%nat, userListUpdate []) ∈ sent (handle ev s)
  ∧ (1%nat, OPEN) ∈ clients_of ev.
Proof.
  intros ev s.
  assert ((1%nat, userListUpdate []) ∈ sent (handle ev s)) as Hsent by left.
  split; [exact Hsent|].
  exact (packets_reach_only_open_clients ev s 1%nat (userListUpdate []) Hsent).
Defined.

(** X2. A connection that arrives changes nothing of the state. It is sent
    the current document first, whatever its [readyState]; and if it is
    among the open clients it also gets the current roster and the current
    attribution, as every open client does. *)
Theorem connection_is_greeted_with_current_state
    (clients : list client) (ws : conn) (s : state) :
  let r := on_connection clients ws s in
  returned r = inr tt
  ∧ final r = s
  ∧ head (sent r) = Some (ws, documentUpdate (sharedDocumentContent s))
  ∧ ∀ to, (to, OPEN) ∈ clients →
      (to, userListUpdate (Map_values (activeUsersMap s))) ∈ sent r
      ∧ (to, lineAttributionUpdate (lineEdits s)) ∈ sent r.
Proof.
  intros r. subst r. rewrite on_connection_spec. cbn. split_and!; try done.
  intros to Hto.
  assert (to ∈ recipients clients) as Hrec.
  { unfold recipients. apply (list_elem_of_fmap_2 fst _ (to, OPEN)).
    by apply list_elem_of_filter. }
  split; right; apply elem_of_app; [left | right]; by apply to_all_elem.
Qed.

(** X3. A frame that parses to anything but [null] and whose [type] is
    neither [checkUsername] nor [edit] (a missing [type], another string, a
    value that is no object) is ignored: no state change, no reply, no
    exception. *)
Theorem unknown_message_is_ignored
    (clients : list client) (ws : conn) (rnd : nat) (s : state) (v : json) :
  v ≠ JNull →
  strict_equal "checkUsername" (message_type v) = false →
  strict_equal "edit" (message_type v) = false →
  on_message clients ws (Json v) rnd s = Result (inr tt) s [].
Proof.
  intros Hnull Hc He.
  destruct v as [| | | | |props]; try done.
  unfold on_message, bind. cbn -[checkUsername edit strict_equal] in *.
  by rewrite Hc, He.
Qed.

Lemma unknown_message_is_ignored_witness :
  on_message [(1%nat, OPEN)] 1%nat
    (Json (JObj [("type", JStr "cursor"); ("username", JStr "alice")])) 0 initial
  = Result (inr tt) initial [].
Proof.
  apply unknown_message_is_ignored; [discriminate | reflexivity | reflexivity].
Defined.

(** X4. A [checkUsername] message whose [username] is missing or is no
    string makes the handler throw a [TypeError] at [trim]; so does the frame
    [null] at [parsed.type]. Nothing has been changed or sent by then. *)
Theorem claim_without_name_throws
    (clients : list client) (ws : conn) (rnd : nat) (s : state)
    (props : list (string * json)) :
  own_property "type" props = Some (JStr "checkUsername") →
  (∀ name, own_property "username" props ≠ Some (JStr name)) →
  on_message clients ws (Json (JObj props)) rnd s = Result (inl TypeError) s []
  ∧ on_message clients ws (Json JNull) rnd s = Result (inl TypeError) s [].
Proof.
  intros Htype Hname. split; [|done].
  rewrite on_message_checkUsername by done. unfold checkUsername_outcome.
  destruct (own_property "username" props) as [[| | |name| |]|]; try done.
  by destruct (Hname name).
Qed.

Lemma claim_without_name_throws_witness :
  on_message [(1%nat, OPEN)] 1%nat
    (Json (JObj [("type", JStr "checkUsername"); ("username", JNum 7)])) 0 initial
  = Result (inl TypeError) initial [].
Proof.
  destruct (claim_without_name_throws [(1%nat, OPEN)] 1%nat 0 initial
              [("type", JStr "checkUsername"); ("username", JNum 7)]) as [H _];
    [reflexivity | discriminate | exact H].
Defined.

Section EditOutcome.
Lemma claim_of_free_name
    (clients : list client) (ws : conn) (rnd : nat) (s : state)
    (props : list (string * json)) (name : string) :
  own_property "type" props = Some (JStr "checkUsername") →
  own_property "username" props = Some (JStr name) →
  trim name ≠ "" →
  trim name ∉ identities s →
  on_message clients ws (Json (JObj props)) rnd s
  = Result (inr tt)
      {| sharedDocumentContent := sharedDocumentContent s;
         activeUsersMap :=
           Map_set ws {| user_id := trim name; user_color := getRandomColor rnd |}
                   (activeUsersMap s);
         lineEdits := lineEdits s |}
      ((ws, usernameAccepted (trim name))
         :: to_all clients
              (userListUpdate
                 (Map_values
                    (Map_set ws {| user_id := trim name; user_color := getRandomColor rnd |}
                             (activeUsersMap s))))
         ++ to_all clients (lineAttributionUpdate (lineEdits s)))%list.
Proof.
  intros Htype Hname Hne Hfree.
  rewrite on_message_checkUsername by done.
  unfold checkUsername_outcome. rewrite Hname.
  apply isTaken_false in Hfree. rewrite Hfree.
  by destruct (String.eqb_spec (trim name) "").
Qed.

Lemma keys_until_throw_completes (items : list json) :
  (keys_until_throw items).2 = false ↔ Forall (λ x, is_Some (ToString x)) items.
Proof.
  induction items as [|x rest IH]; cbn.
  - split; [intros _; apply Forall_nil_2 | done].
  - destruct (ToString x) as [k|] eqn:Hx.
    + destruct (keys_until_throw rest) as [ks stopped]. cbn in *.
      rewrite IH. split.
      * intros H. apply Forall_cons. split; [by rewrite Hx | done].
      * by intros [_ H]%Forall_cons.
    + cbn. split; [done|]. intros [[k Hk] _]%Forall_cons. congruence.
Qed.

Lemma handle_keeps_entries (ev : event) (s : state) (k : string) :
  is_Some (lineEdits s !! k) → is_Some (lineEdits (final (handle ev s)) !! k).
Proof.
  intros Hk.
  destruct ev as [clients ws|clients ws message rnd|clients ws|ws]; cbn [handle].
  - by rewrite on_connection_spec.
  - destruct (on_message_dispatch clients ws rnd message s)
      as [(p & _ & _ & ->)|[(p & _ & _ & ->)|[-> _]]]; [| |done].
    + unfold checkUsername_outcome.
      destruct (own_property "username" p) as [[| | |name| |]|]; try done.
      by destruct (_ || _)%bool.
    + unfold edit_outcome.
      destruct (own_property "changedLines" p) as [[| | | |items|]|]; try done.
      destruct (author (own_property "userId" p) s) as [u|]; cbn; [|done].
      assert (is_Some
                (foldl (assign {| userId := user_id u; color := user_color u |})
                       (lineEdits s) (keys_until_throw items).1 !! k)) as Hfold.
      { rewrite foldl_assign_lookup. by case_decide. }
      by destruct ((keys_until_throw items).2).
  - rewrite on_close_spec. by destruct (Map_has ws (activeUsersMap s)).
  - done.
Qed.

Lemma run_rosters_distinct (evs : list event) (s : state) (to : conn) (users : list user) :
  registry_ok s →
  (to, userListUpdate users) ∈ (run evs s).2 → NoDup (user_id <$> users).
Proof.
  revert s. induction evs as [|ev rest IH]; intros s Hok; cbn.
  - intros H. by apply elem_of_nil in H.
  - pose proof (handle_registry_ok ev s Hok) as Hok'.
    specialize (IH (final (handle ev s)) Hok').
    destruct (run rest (final (handle ev s))) as [s' out]. cbn in *.
    intros [Hin|Hin]%elem_of_app; [|by apply IH].
    rewrite (handle_roster ev s to users Hin). apply Hok'.
Qed.
End EditOutcome.

(** X5. An [edit] message always replaces the document by its [content] and
    never touches the registry. Then it either completes, having sent the
    document and the attribution to every open client, or throws a
    [TypeError], having sent nothing at all, so that no client learns of the
    new document. It completes exactly when [changedLines] is an array and
    either [userId] names no participant or every element of the array has a
    string form. *)
Theorem edit_completes_or_throws
    (clients : list client) (ws : conn) (rnd : nat) (s : state)
    (props : list (string * json)) :
  own_property "type" props = Some (JStr "edit") →
  let r := on_message clients ws (Json (JObj props)) rnd s in
  let content := own_property "content" props in
  sharedDocumentContent (final r) = content
  ∧ activeUsersMap (final r) = activeUsersMap s
  ∧ ((returned r = inr tt
      ∧ sent r = (to_all clients (documentUpdate content)
                  ++ to_all clients (lineAttributionUpdate (lineEdits (final r))))%list)
     ∨ (returned r = inl TypeError ∧ sent r = []))
  ∧ (returned r = inr tt ↔
     ∃ items, own_property "changedLines" props = Some (JArr items)
              ∧ (author (own_property "userId" props) s = None
                 ∨ Forall (λ x, is_Some (ToString x)) items)).
Proof.
  intros Htype r content. subst r. rewrite on_message_edit by done.
  unfold edit_outcome. fold content.
  destruct (own_property "changedLines" props) as [[| | | |items|]|];
    try (split_and!; [done | done | by right |];
         split; [done | by intros (items & [=] & _)]).
  destruct (author (own_property "userId" props) s) as [u|]; cbn.
  - pose proof (keys_until_throw_completes items) as Hc.
    destruct ((keys_until_throw items).2); cbn.
    + split_and!; [done | done | by right |].
      split; [done|]. intros (items' & [= <-] & [?|HF]); [done|].
      by apply Hc in HF.
    + split_and!; [done | done | by left |].
      split; [|done]. intros _. exists items. split; [done|]. right. by apply Hc.
  - split_and!; [done | done | by left |].
    split; [|done]. intros _. exists items. split; [done | by left].
Qed.

Lemma edit_completes_or_throws_witness :
  let s := (run [Message [(1%nat, OPEN)] 1%nat (checkUsername_msg "alice") 0] initial).1 in
  let r := on_message [(1%nat, OPEN)] 1%nat
             (Json (JObj [("type", JStr "edit"); ("content", JStr "lost")])) 0 s in
  sharedDocumentContent (final r) = Some (JStr "lost")
  ∧ returned r = inl TypeError ∧ sent r = [].
Proof.
  intros s r.
  destruct (edit_completes_or_throws [(1%nat, OPEN)] 1%nat 0 s
              [("type", JStr "edit"); ("content", JStr "lost")])
    as (H1 & _ & [[H _]|H3] & _); [reflexivity | discriminate H |].
  split; [exact H1 | exact H3].
Defined.

(** X6. A [checkUsername] for a name that, trimmed, is not empty and is held
    by nobody is accepted, whoever sends it: the sender is registered under
    the trimmed name with the color drawn, is told [usernameAccepted], and
    the new roster and the attribution go to every open client; document and
    attribution are untouched. A sender that had no name comes last in the
    roster. *)
Theorem free_name_is_accepted
    (clients : list client) (ws : conn) (rnd : nat) (s : state)
    (props : list (string * json)) (name : string) :
  own_property "type" props = Some (JStr "checkUsername") →
  own_property "username" props = Some (JStr name) →
  trim name ≠ "" →
  trim name ∉ identities s →
  let new := {| user_id := trim name; user_color := getRandomColor rnd |} in
  let users := Map_set ws new (activeUsersMap s) in
  on_message clients ws (Json (JObj props)) rnd s
  = Result (inr tt)
      {| sharedDocumentContent := sharedDocumentContent s;
         activeUsersMap := users;
         lineEdits := lineEdits s |}
      ((ws, usernameAccepted (trim name))
         :: to_all clients (userListUpdate (Map_values users))
         ++ to_all clients (lineAttributionUpdate (lineEdits s)))%list
  ∧ (Map_get ws (activeUsersMap s) = None →
     users = (activeUsersMap s ++ [(ws, new)])%list).
Proof.
  intros Htype Hname Hne Hfree new users. split.
  - by apply claim_of_free_name.
  - apply Map_set_absent.
Qed.

Lemma free_name_is_accepted_witness :
  let s := (run [Message [(1%nat, OPEN)] 1%nat (checkUsername_msg "alice") 0] initial).1 in
  activeUsersMap
    (final (on_message [(1%nat, OPEN); (2%nat, OPEN)] 2%nat (checkUsername_msg "bob ") 8 s))
  = [(1%nat, {| user_id := "alice"; user_color := "#EF4444" |});
     (2%nat, {| user_id := "bob"; user_color := "#F97316" |})].
Proof.
  intros s.
  destruct (free_name_is_accepted [(1%nat, OPEN); (2%nat, OPEN)] 2%nat 8 s
              [("type", JStr "checkUsername"); ("username", JStr "bob ")] "bob ")
    as [H _].
  - reflexivity.
  - reflexivity.
  - discriminate.
  - vm_compute. intros [Hin|Hin]%elem_of_cons; [discriminate | by apply elem_of_nil in Hin].
  - unfold checkUsername_msg. rewrite H. reflexivity.
Defined.

(** X7. A claim that has just been accepted, sent again by anyone, the same
    connection included, is rejected and changes nothing. *)
Theorem repeated_claim_is_rejected
    (clients clients' : list client) (ws ws' : conn) (rnd rnd' : nat) (s : state)
    (props : list (string * json)) (name : string) :
  own_property "type" props = Some (JStr "checkUsername") →
  own_property "username" props = Some (JStr name) →
  trim name ≠ "" →
  trim name ∉ identities s →
  let once := on_message clients ws (Json (JObj props)) rnd s in
  on_message clients' ws' (Json (JObj props)) rnd' (final once)
  = Result (inr tt) (final once) [(ws', usernameRejected)].
Proof.
  intros Htype Hname Hne Hfree once.
  subst once. rewrite (claim_of_free_name clients ws rnd s props name) by done.
  cbn [final].
  rewrite on_message_checkUsername by done.
  unfold checkUsername_outcome. rewrite Hname.
  assert (isTaken (trim name)
            {| sharedDocumentContent := sharedDocumentContent s;
               activeUsersMap :=
                 Map_set ws {| user_id := trim name; user_color := getRandomColor rnd |}
                         (activeUsersMap s);
               lineEdits := lineEdits s |} = true) as ->.
  { apply isTaken_true. unfold identities, Map_values. cbn.
    apply (list_elem_of_fmap_2 user_id _
             {| user_id := trim name; user_color := getRandomColor rnd |}).
    apply (list_elem_of_fmap_2 snd _
             (ws, {| user_id := trim name; user_color := getRandomColor rnd |})).
    apply Map_get_Some_elem, Map_set_get_eq. }
  by rewrite orb_true_r.
Qed.

Lemma repeated_claim_is_rejected_witness :
  let once := on_message [(1%nat, OPEN)] 1%nat (checkUsername_msg "alice") 0 initial in
  sent (on_message [(1%nat, OPEN)] 1%nat (checkUsername_msg "alice") 3 (final once))
  = [(1%nat, usernameRejected)].
Proof.
  intros once. subst once. unfold checkUsername_msg.
  rewrite (repeated_claim_is_rejected [(1%nat, OPEN)] [(1%nat, OPEN)] 1%nat 1%nat 0 3
             initial _ "alice"); [reflexivity | reflexivity | reflexivity | discriminate |].
  apply not_elem_of_nil.
Defined.

(** X8. Only an [edit] message changes the document or the attribution:
    every other event (connection, close, error, name claim, unknown or
    unparseable frame) leaves both as they were. *)
Theorem only_edits_touch_document (ev : event) (s : state) :
  is_edit ev = false →
  sharedDocumentContent (final (handle ev s)) = sharedDocumentContent s
  ∧ lineEdits (final (handle ev s)) = lineEdits s.
Proof.
  intros Hev.
  destruct ev as [clients ws|clients ws message rnd|clients ws|ws]; cbn [handle].
  - by rewrite on_connection_spec.
  - destruct (on_message_dispatch clients ws rnd message s)
      as [(p & _ & _ & ->)|[(p & -> & Htype & _)|[-> _]]]; [| |done].
    + unfold checkUsername_outcome.
      destruct (own_property "username" p) as [[| | |name| |]|]; try done.
      by destruct (_ || _)%bool.
    + cbn in Hev. rewrite Htype in Hev. discriminate Hev.
  - rewrite on_close_spec. by destruct (Map_has ws (activeUsersMap s)).
  - done.
Qed.

Lemma only_edits_touch_document_witness :
  let s := (run [Message [(1%nat, OPEN)] 1%nat (checkUsername_msg "alice") 0;
                 Message [(1%nat, OPEN)] 1%nat (edit_msg "alice" "text" [0]) 0] initial).1 in
  sharedDocumentContent (final (handle (Close [] 1%nat) s)) = Some (JStr "text").
Proof.
  intros s.
  destruct (only_edits_touch_document (Close [] 1%nat) s) as [H _]; [reflexivity|].
  rewrite H. reflexivity.
Defined.

(** X9. Only a [checkUsername] message or a close changes the registry:
    every other event, an [edit] included, leaves it as it was. *)
Theorem only_claims_and_closes_touch_registry (ev : event) (s : state) :
  is_claim_or_close ev = false →
  activeUsersMap (final (handle ev s)) = activeUsersMap s.
Proof.
  intros Hev.
  destruct ev as [clients ws|clients ws message rnd|clients ws|ws]; cbn [handle].
  - by rewrite on_connection_spec.
  - destruct (on_message_dispatch clients ws rnd message s)
      as [(p & -> & Htype & _)|[(p & _ & _ & ->)|[-> _]]]; [| |done].
    + cbn in Hev. rewrite Htype in Hev. discriminate Hev.
    + apply edit_outcome_users.
  - discriminate Hev.
  - done.
Qed.

Lemma only_claims_and_closes_touch_registry_witness :
  let s := (run [Message [(1%nat, OPEN)] 1%nat (checkUsername_msg "alice") 0] initial).1 in
  activeUsersMap
    (final (handle (Message [(1%nat, OPEN)] 2%nat (edit_msg "alice" "x" [0]) 0) s))
  = [(1%nat, {| user_id := "alice"; user_color := "#EF4444" |})].
Proof.
  intros s.
  rewrite (only_claims_and_closes_touch_registry
             (Message [(1%nat, OPEN)] 2%nat (edit_msg "alice" "x" [0]) 0) s);
    reflexivity.
Defined.

(** X10. The server never removes an attribution entry: a line that has an
    entry keeps one through every later event, whoever disconnects and
    however the document shrinks. *)
Theorem attribution_is_never_removed (evs : list event) (s : state) (k : string) :
  is_Some (lineEdits s !! k) → is_Some (lineEdits (run evs s).1 !! k).
Proof.
  revert s. induction evs as [|ev rest IH]; intros s Hk; cbn; [done|].
  specialize (IH (final (handle ev s)) (handle_keeps_entries ev s k Hk)).
  by destruct (run rest (final (handle ev s))).
Qed.

Lemma attribution_is_never_removed_witness :
  let s := (run [Message [(1%nat, OPEN)] 1%nat (checkUsername_msg "alice") 0;
                 Message [(1%nat, OPEN)] 1%nat (edit_msg "alice" "text" [0; 4]) 0] initial).1 in
  is_Some (lineEdits (run [Message [(1%nat, OPEN)] 1%nat (edit_msg "alice" "" []) 0;
                           Close [] 1%nat] s).1 !! "4").
Proof.
  intros s. apply attribution_is_never_removed. by eexists.
Defined.

(** X11. Along every sequence of events from the initial state, every
    registered participant and every attribution entry carries a name that
    is not empty and has no white space at either end, and one of the seven
    colors of the palette. *)
Theorem names_and_colors_are_well_formed (evs : list event) :
  values_ok (run evs initial).1.
Proof.
  assert (∀ s, values_ok s → values_ok (run evs s).1) as Hrun.
  { induction evs as [|ev rest IH]; intros s Hs; cbn; [done|].
    specialize (IH (final (handle ev s)) (handle_values_ok ev s Hs)).
    by destruct (run rest (final (handle ev s))). }
  apply Hrun, values_ok_initial.
Qed.

(** X12. Every roster the server ever sends lists participants with
    pairwise distinct names. *)
Theorem rosters_list_distinct_names
    (evs : list event) (to : conn) (users : list user) :
  (to, userListUpdate users) ∈ (run evs initial).2 → NoDup (user_id <$> users).
Proof. apply run_rosters_distinct, registry_ok_initial. Qed.

Lemma rosters_list_distinct_names_witness :
  NoDup (user_id <$> [{| user_id := "alice"; user_color := "#EF4444" |};
                      {| user_id := "bob"; user_color := "#F97316" |}]).
Proof.
  apply (rosters_list_distinct_names
           [Message [(1%nat, OPEN)] 1%nat (checkUsername_msg "alice") 0;
            Message [(1%nat, OPEN); (2%nat, OPEN)] 2%nat (checkUsername_msg "bob") 1]
           2%nat).
  vm_compute. repeat first [left | right].
Defined.

(** X13. Closing a connection a second time does nothing: no state change
    and no roster broadcast (in a registry with one entry per connection). *)
Theorem close_twice_is_close_once
    (clients clients' : list client) (ws : conn) (s : state) :
  registry_ok s →
  let once := on_close clients ws s in
  on_close clients' ws (final once) = Result (inr tt) (final once) [].
Proof.
  intros Hok once. subst once. rewrite !on_close_spec.
  destruct (Map_has ws (activeUsersMap s)) eqn:Hhas; cbn.
  - unfold Map_has. by rewrite Map_delete_get_eq by apply Hok.
  - by rewrite Hhas.
Qed.

Lemma close_twice_is_close_once_witness :
  let s := (run [Message [(1%nat, OPEN)] 1%nat (checkUsername_msg "alice") 0] initial).1 in
  sent (on_close [(2%nat, OPEN)] 1%nat (final (on_close [(2%nat, OPEN)] 1%nat s))) = [].
Proof.
  intros s.
  rewrite (close_twice_is_close_once [(2%nat, OPEN)] [(2%nat, OPEN)] 1%nat s);
    [reflexivity|].
  apply run_registry_ok, registry_ok_initial.
Defined.

(** * Properties of the editor client *)

Section Diff.
Implicit Types (oldLines newLines : list string) (index i : nat).

Lemma line_changed_true oldLines (line : string) index :
  line_changed oldLines line index = true ↔ oldLines !! index ≠ Some line.
Proof.
  unfold line_changed. destruct (oldLines !! index) as [old|]; [|done].
  destruct (String.eqb_spec line old) as [->|Hne]; cbn; split; try done.
  intros _ [= ->]. done.
Qed.

Lemma collect_changed_acc oldLines index newLines (acc : list nat) :
  collect_changed oldLines index newLines acc
  = (acc ++ collect_changed oldLines index newLines [])%list.
Proof.
  revert index acc. induction newLines as [|line rest IH]; intros index acc; cbn.
  - by rewrite app_nil_r.
  - rewrite (IH _ (if line_changed oldLines line index then _ else _)).
    rewrite (IH _ (if line_changed oldLines line index then [index] else [])).
    destruct (line_changed oldLines line index); [|done].
    by rewrite <-app_assoc.
Qed.

Lemma collect_changed_cons oldLines index (line : string) newLines :
  collect_changed oldLines index (line :: newLines) []
  = ((if line_changed oldLines line index then [index] else [])
       ++ collect_changed oldLines (S index) newLines [])%list.
Proof. cbn. by rewrite collect_changed_acc. Qed.

Lemma elem_of_collect_changed oldLines index newLines i :
  i ∈ collect_changed oldLines index newLines [] ↔
  (index ≤ i)%nat
  ∧ ∃ line, newLines !! (i - index)%nat = Some line ∧ oldLines !! i ≠ Some line.
Proof.
  revert index. induction newLines as [|line rest IH]; intros index.
  - cbn. split; [intros H; by apply elem_of_nil in H|].
    by intros (_ & l & Hl & _).
  - rewrite collect_changed_cons, elem_of_app, IH. split.
    + intros [Hhead|(Hle & l & Hl & Hold)].
      * destruct (line_changed oldLines line index) eqn:Hc;
          [|by apply elem_of_nil in Hhead].
        apply list_elem_of_singleton in Hhead as ->.
        split; [lia|]. exists line. rewrite Nat.sub_diag.
        split; [done | by apply line_changed_true].
      * split; [lia|]. exists l. split; [|done].
        replace (i - index)%nat with (S (i - S index)) by lia. done.
    + intros (Hle & l & Hl & Hold).
      destruct (decide (i = index)) as [->|Hne].
      * left. rewrite Nat.sub_diag in Hl. injection Hl as ->.
        apply line_changed_true in Hold. rewrite Hold. left.
      * right. split; [lia|]. exists l. split; [|done].
        replace (i - index)%nat with (S (i - S index)) in Hl by lia. done.
Qed.

Lemma collect_changed_sorted oldLines index newLines :
  StronglySorted lt (collect_changed oldLines index newLines []).
Proof.
  revert index. induction newLines as [|line rest IH]; intros index.
  - constructor.
  - rewrite collect_changed_cons.
    destruct (line_changed oldLines line index); cbn; [|apply IH].
    constructor; [apply IH|].
    apply Forall_forall. intros i Hi.
    apply elem_of_collect_changed in Hi as [Hle _]. lia.
Qed.

Lemma prefix_by_lookup (l1 l2 : list string) :
  (∀ i x, l1 !! i = Some x → l2 !! i = Some x) ↔ l1 `prefix_of` l2.
Proof.
  split.
  - revert l2. induction l1 as [|x l1 IH]; intros l2 H; [apply prefix_nil|].
    destruct l2 as [|y l2]; [by specialize (H 0%nat x eq_refl)|].
    pose proof (H 0%nat x eq_refl) as [= ->].
    apply prefix_cons, IH. intros i z Hz. exact (H (S i) z Hz).
  - intros Hp i x Hx. by eapply prefix_lookup_Some.
Qed.

Lemma pretty_index_inj (i j : nat) :
  pretty (Z.of_nat i) = pretty (Z.of_nat j) → i = j.
Proof. intros H%(inj pretty). lia. Qed.

Lemma elem_of_diff_lines (previous newContent : string) i :
  i ∈ diff_lines previous newContent ↔
  ∃ line, split_lines newContent !! i = Some line
          ∧ split_lines previous !! i ≠ Some line.
Proof.
  unfold diff_lines. rewrite elem_of_collect_changed, Nat.sub_0_r. split.
  - by intros [_ H].
  - intros H. split; [lia | done].
Qed.
End Diff.

(** X14. The change set the editor computes lists exactly the lines of the
    new text that differ from the line of the same index in the previous
    text, or lie beyond its end; it lists them in ascending order, each
    once. Lines removed at the end of the text are never listed. *)
Theorem diff_lines_lists_changed_lines (previous newContent : string) :
  StronglySorted lt (diff_lines previous newContent)
  ∧ ∀ i, i ∈ diff_lines previous newContent ↔
         ∃ line, split_lines newContent !! i = Some line
                 ∧ split_lines previous !! i ≠ Some line.
Proof.
  split; [apply collect_changed_sorted | apply elem_of_diff_lines].
Qed.

(** X15. The editor reports no changed line exactly when the lines of the
    new text are the first lines of the previous text: when nothing was
    typed, and also when lines were only removed at the end. *)
Theorem diff_lines_empty_iff_prefix (previous newContent : string) :
  (diff_lines previous newContent = [] ↔
   split_lines newContent `prefix_of` split_lines previous)
  ∧ diff_lines previous previous = [].
Proof.
  assert (∀ p n, diff_lines p n = [] ↔ split_lines n `prefix_of` split_lines p) as Hiff.
  { intros p n. rewrite <-prefix_by_lookup. split.
    - intros Hnil i x Hx.
      destruct (decide (split_lines p !! i = Some x)) as [|Hne]; [done|].
      assert (i ∈ diff_lines p n) as Hin.
      { apply elem_of_diff_lines. by exists x. }
      rewrite Hnil in Hin. by apply elem_of_nil in Hin.
    - intros Hpre. apply elem_of_nil_inv. intros i Hin.
      apply elem_of_diff_lines in Hin as (x & Hx & Hne).
      by apply Hne, Hpre. }
  split; [apply Hiff|]. by apply Hiff.
Qed.

Section Editor.
Lemma editor_lists_natural_numbers (ev : event) :
  from_editor ev → lists_natural_numbers ev = true.
Proof.
  intros Hev. destruct ev as [clients ws|clients ws [|v] rnd|clients ws|ws]; try done.
  destruct v as [| | | | |props]; try done.
  cbn. destruct (strict_equal "edit" (own_property "type" props)) eqn:He; [|done].
  destruct (Hev He) as (c & w & r & uid & p & n & Heq).
  unfold edit_msg in Heq. injection Heq as _ _ -> _.
  cbn. clear. induction (diff_lines p n) as [|i l IH]; [done|].
  cbn. rewrite IH. by destruct i.
Qed.

Lemma forallb_from_editor (evs : list event) :
  Forall from_editor evs → forallb lists_natural_numbers evs = true.
Proof.
  induction 1 as [|ev rest Hev _ IH]; [done|].
  cbn. by rewrite editor_lists_natural_numbers, IH.
Qed.
End Editor.

(** X16. When every [edit] message the server handles is one that the
    editor's [handleDocumentChange] builds, every key of the attribution is
    a zero-based line index, whatever else happens. *)
Theorem editor_edits_keep_line_indices (evs : list event) :
  Forall from_editor evs →
  keys_are_line_indices (lineEdits (run evs initial).1).
Proof.
  intros Hevs.
  apply run_keeps_line_indices; [by apply forallb_from_editor|].
  intros k [a Ha]. cbn in Ha. by rewrite lookup_empty in Ha.
Qed.

Lemma editor_edits_keep_line_indices_witness :
  keys_are_line_indices
    (lineEdits
       (run [Message [(1%nat, OPEN)] 1%nat (checkUsername_msg "alice") 0;
             Message [(1%nat, OPEN)] 1%nat
               (edit_msg "alice" ("a" +:+ LF +:+ "b")
                  (Z.of_nat <$> diff_lines "" ("a" +:+ LF +:+ "b"))) 0]
            initial).1).
Proof.
  apply editor_edits_keep_line_indices.
  apply Forall_cons. split; [discriminate|].
  apply Forall_cons. split; [|apply Forall_nil_2].
  intros _. by exists [(1%nat, OPEN)], 1%nat, 0%nat, "alice", "", ("a" +:+ LF +:+ "b").
Defined.

(** X17. From the keystroke to the attribution: when the editor of a
    registered participant sends the edit that [handleDocumentChange] builds
    for a new text, the server ends with that text as the document, every
    line of it that differs from the editor's previous text is attributed to
    the participant with their color, and every line that is as before keeps
    the attribution it had. The editor remembers the new text. *)
Theorem keystroke_attributes_changed_lines
    (clients : list client) (ws c : conn) (rnd : nat) (s : state) (u : user)
    (previous newContent remembered : string) (m : frame) :
  registry_ok s →
  Map_get c (activeUsersMap s) = Some u →
  handleDocumentChange (Some (JStr previous)) (Some OPEN) (user_id u) newContent
  = Some (remembered, Some m) →
  let r := on_message clients ws m rnd s in
  remembered = newContent
  ∧ returned r = inr tt
  ∧ sharedDocumentContent (final r) = Some (JStr newContent)
  ∧ ∀ (i : nat) (line : string),
      split_lines newContent !! i = Some line →
      lineEdits (final r) !! pretty (Z.of_nat i)
      = if decide (split_lines previous !! i = Some line)
        then lineEdits s !! pretty (Z.of_nat i)
        else Some {| userId := user_id u; color := user_color u |}.
Proof.
  intros Hok Hget [= <- <-] r. subst r. unfold edit_msg.
  rewrite on_message_edit by done. unfold edit_outcome.
  cbn [own_property String.eqb Ascii.eqb Bool.eqb].
  rewrite (author_registered s c u Hok Hget), keys_of_line_numbers. cbn.
  split_and!; try done.
  intros i line Hline. rewrite foldl_assign_lookup.
  destruct (decide (split_lines previous !! i = Some line)) as [Hsame|Hdiff].
  - rewrite decide_False; [done|]. intros [Hin _].
    apply list_elem_of_fmap in Hin as (z & Hz & Hin).
    apply list_elem_of_fmap in Hin as (j & -> & Hj).
    apply pretty_index_inj in Hz as <-.
    apply elem_of_diff_lines in Hj as (l & Hl & Hne). congruence.
  - rewrite decide_True; [done|]. split.
    + apply list_elem_of_fmap_2, list_elem_of_fmap_2, elem_of_diff_lines. by exists line.
    + intros Heq. pose proof (pretty_Z_not_proto (Z.of_nat i)) as Hp.
      rewrite Heq in Hp. discriminate.
Qed.

Lemma keystroke_attributes_changed_lines_witness :
  let s := (run [Message [(1%nat, OPEN)] 1%nat (checkUsername_msg "alice") 0;
                 Message [(1%nat, OPEN); (2%nat, OPEN)] 2%nat (checkUsername_msg "bob") 1;
                 Message [(1%nat, OPEN); (2%nat, OPEN)] 1%nat
                   (edit_msg "alice" ("a" +:+ LF +:+ "b") [0; 1]) 0] initial).1 in
  let m := edit_msg "bob" ("a" +:+ LF +:+ "c")
             (Z.of_nat <$> diff_lines ("a" +:+ LF +:+ "b") ("a" +:+ LF +:+ "c")) in
  let r := on_message [(1%nat, OPEN); (2%nat, OPEN)] 2%nat m 0 s in
  lineEdits (final r) !! "0" = Some {| userId := "alice"; color := "#EF4444" |}
  ∧ lineEdits (final r) !! "1" = Some {| userId := "bob"; color := "#F97316" |}.
Proof.
  intros s m r.
  destruct (keystroke_attributes_changed_lines [(1%nat, OPEN); (2%nat, OPEN)] 2%nat 2%nat 0 s
              {| user_id := "bob"; user_color := "#F97316" |}
              ("a" +:+ LF +:+ "b") ("a" +:+ LF +:+ "c") ("a" +:+ LF +:+ "c") m)
    as (_ & _ & _ & H).
  - apply run_registry_ok, registry_ok_initial.
  - reflexivity.
  - reflexivity.
  - split.
    + exact (H 0%nat "a" eq_refl).
    + exact (H 1%nat "c" eq_refl).
Defined.

(** X18. [handleJoin] sends nothing when the typed name is empty after
    trimming, and sets the error instead. Whatever it sends is a
    [checkUsername] with the trimmed, non-empty name, sent only on an open
    socket; the server trims it to the same name, so it answers
    [usernameAccepted] with exactly that name whenever nobody holds it. *)
Theorem join_sends_only_usable_names (ws : option readyState) (usernameInput : string) :
  (trim usernameInput = "" →
   handleJoin ws usernameInput = (Some "Username cannot be empty.", None))
  ∧ (∀ err m,
       handleJoin ws usernameInput = (err, Some m) →
       err = None
       ∧ ws = Some OPEN
       ∧ trim usernameInput ≠ ""
       ∧ m = checkUsername_msg (trim usernameInput)
       ∧ ∀ clients c rnd s,
           trim usernameInput ∉ identities s →
           (c, usernameAccepted (trim usernameInput))
             ∈ sent (on_message clients c m rnd s)).
Proof.
  unfold handleJoin. split.
  - by intros ->.
  - intros err m.
    destruct (String.eqb_spec (trim usernameInput) "") as [|Hne]; [done|].
    destruct ws as [[| | |]|]; cbn; try done.
    intros [= <- <-]. split_and!; try done.
    intros clients c rnd s Hfree. unfold checkUsername_msg.
    rewrite (claim_of_free_name clients c rnd s _ (trim usernameInput));
      rewrite ?trim_twice; try done.
    left.
Qed.
